(** * Arbeitszeit-Tracker: the logic of [App.jsx], embedded and verified

    The application is one React component over a handful of pure helpers.
    This development embeds the helpers and the state updaters of
    [src/App.jsx] as Rocq functions and proves, or refutes, the properties
    its specification states about them.

    Conventions of the embedding.
    - A JavaScript string is a [string]: the bytes of its UTF-8 encoding.
      Every character the code inspects ([":"], digits, signs, blanks) is
      ASCII, so splitting and digit reading agree with the UTF-16 original.
    - A JavaScript number is a [Z].  The code computes with doubles, whose
      sums, differences and products are exact on integers below 2^53 in
      absolute value; the embedding stands for the code on such numbers
      only.  Text whose numeric value is not an integer (["1.5"], ["1e3"],
      ["0x10"], ["Infinity"], non-ASCII blanks) is outside the embedding:
      [Number] answers [None] on it, and so does everything computed from
      it.  A theorem whose truth depends on the size of the numbers, or on
      the order in which they are added, carries the range as a hypothesis
      ([wellTimedEntry], [exactBalance]).
    - [x?: T] and [undefined] are [option]; truthiness of an optional string
      is [truthy].
    - React state is passed explicitly: an updater [prev => next] is a
      function on the entries list, and [nowHHMM()], [selectedDate] and the
      time-zone offset of the runtime are arguments. *)

From Stdlib Require Import ZArith Lia Strings.String Strings.Ascii DecimalString.
From stdpp Require Import base option list strings.

Local Open Scope string_scope.
Local Open Scope Z_scope.

(** ** JavaScript primitives used by the helpers *)

Module JS.

(** [!!x] for an optional string: [undefined] and the empty string are
    falsy. *)
Definition truthy (x : option string) : bool :=
  match x with
  | None => false
  | Some s => negb (String.eqb s EmptyString)
  end.

(** [s.split(c)] for a one-character separator: the first field and the
    fields after it (the result of [split] is never empty). *)
Fixpoint split (sep : ascii) (s : string) : string * list string :=
  match s with
  | EmptyString => (EmptyString, [])
  | String c r =>
      let '(f, fs) := split sep r in
      if Ascii.eqb c sep then (EmptyString, f :: fs) else (String c f, fs)
  end.

(** The values a destructured array element of [hhmm.split(":").map(Number)]
    can take. *)
Inductive jsval :=
| Undefined
| NaN
| Num (z : Z).

Definition is_digit (c : ascii) : bool :=
  ((48 <=? nat_of_ascii c) && (nat_of_ascii c <=? 57))%nat.

Definition digit_val (c : ascii) : Z := Z.of_nat (nat_of_ascii c) - 48.

(** ASCII members of WhiteSpace and LineTerminator: TAB, LF, VT, FF, CR, SP. *)
Definition is_blank (c : ascii) : bool :=
  let n := nat_of_ascii c in
  ((9 <=? n) && (n <=? 13) || (n =? 32))%nat.

Definition is_ascii7 (c : ascii) : bool := (nat_of_ascii c <? 128)%nat.

Fixpoint all_ascii7 (s : string) : bool :=
  match s with
  | EmptyString => true
  | String c r => is_ascii7 c && all_ascii7 r
  end.

Fixpoint trimStart (s : string) : string :=
  match s with
  | EmptyString => EmptyString
  | String c r => if is_blank c then trimStart r else s
  end.

Fixpoint trimEnd (s : string) : string :=
  match s with
  | EmptyString => EmptyString
  | String c r =>
      match trimEnd r with
      | EmptyString => if is_blank c then EmptyString else String c EmptyString
      | r' => String c r'
      end
  end.

(** The longest prefix of decimal digits, read as a number, with the number
    of digits read and the text after them. *)
Fixpoint digits (acc : Z) (n : nat) (s : string) : Z * nat * string :=
  match s with
  | String c r => if is_digit c then digits (10 * acc + digit_val c) (S n) r
                  else (acc, n, s)
  | EmptyString => (acc, n, s)
  end.

(** The characters that can continue a numeric literal after its leading
    digits: fraction, exponent, radix prefix. *)
Definition continues_literal (c : ascii) : bool :=
  existsb (Ascii.eqb c) (list_ascii_of_string ".eExXoObB").

(** The bound under which integer literals are embedded. *)
Definition exact_bound : Z := 1000000000000.

(** [Number(s)] on a string (StringToNumber).
    - blank text is [0];
    - an optionally signed run of decimal digits is that integer;
    - text that cannot start a numeric literal, or whose leading digits are
      followed by a character no literal allows there, is [NaN];
    - [None]: text outside the embedding (it is or may be a literal with a
      fraction, an exponent, a radix prefix or [Infinity], an integer of
      [exact_bound] or more, or it holds a non-ASCII character, which may be
      a blank that JavaScript trims). *)
Definition Number (s : string) : option jsval :=
  if negb (all_ascii7 s) then None
  else
    match trimEnd (trimStart s) with
    | EmptyString => Some (Num 0)
    | String c r as t =>
        let '(sgn, body) :=
          if Ascii.eqb c "-" then (-1, r)
          else if Ascii.eqb c "+" then (1, r)
          else (1, t) in
        match digits 0 0 body with
        | (_, O, EmptyString) => Some NaN
        | (_, O, String c' _) =>
            if Ascii.eqb c' "." || Ascii.eqb c' "I" then None else Some NaN
        | (v, S _, EmptyString) =>
            if v <? exact_bound then Some (Num (sgn * v)) else None
        | (_, S _, String c' _) =>
            if continues_literal c' then None else Some NaN
        end
    end.

(** [v || 0] for a number or [undefined]: [undefined], [NaN] and [0] are
    falsy. *)
Definition orZero (v : jsval) : Z :=
  match v with
  | Num z => z
  | _ => 0
  end.

(** [n.toString()] for a non-negative integer (decimal digits). *)
Definition toString (n : Z) : string :=
  NilZero.string_of_uint (N.to_uint (Z.to_N n)).

Fixpoint repeat_char (c : ascii) (n : nat) : string :=
  match n with
  | O => EmptyString
  | S k => String c (repeat_char c k)
  end.

(** [s.padStart(n, c)] for a one-character filler. *)
Definition padStart (n : nat) (c : ascii) (s : string) : string :=
  repeat_char c (n - String.length s) ++ s.

End JS.

(** ** Time arithmetic (App.jsx, lines 21-35) *)

(** [toMinutes]: [None] only when a field is outside the embedding of
    [JS.Number]; the function itself has no failing path. *)
Definition toMinutes (hhmm : option string) : option Z :=
  match hhmm with
  | None => Some 0
  | Some s =>
      if negb (JS.truthy hhmm) then Some 0
      else
        let '(f0, fs) := JS.split ":" s in
        h ← JS.Number f0;
        m ← match fs with
            | [] => Some JS.Undefined
            | f1 :: _ => JS.Number f1
            end;
        Some (JS.orZero h * 60 + JS.orZero m)
  end.

Definition minutesToHHMM (mins : Z) : string :=
  let sign := if mins <? 0 then "-" else EmptyString in
  let a := Z.abs mins in
  let h := JS.padStart 2 "0" (JS.toString (a / 60)) in
  let m := JS.padStart 2 "0" (JS.toString (Z.rem a 60)) in
  sign ++ h ++ ":" ++ m.

(** ** The data model (App.jsx, lines 8-9)

    [start] is declared [string], but the code tests [!p.start] and the
    import path can deliver a pair without it, so both ends are optional. *)

Record TimePair := mkTimePair {
  start : option string;
  end_ : option string
}.

Record DayEntry := mkDayEntry {
  date : string;
  pairs : list TimePair;
  note : option string
}.

(** ** Duration of a day (App.jsx, lines 37-44) *)

(** [arr.reduce(f, init)] for a callback whose result may lie outside the
    embedding. *)
Fixpoint reduce {A B : Type} (f : B → A → option B) (l : list A) (acc : B)
  : option B :=
  match l with
  | [] => Some acc
  | x :: r => acc' ← f acc x; reduce f r acc'
  end.

(** The callback of the [reduce] in [sumDayMinutes]. *)
Definition addPairMinutes (acc : Z) (p : TimePair) : option Z :=
  if negb (JS.truthy (start p)) || negb (JS.truthy (end_ p)) then Some acc
  else
    e ← toMinutes (end_ p);
    s ← toMinutes (start p);
    let dm := e - s in
    let dm := if dm <? 0 then dm + 24 * 60 else dm in
    Some (acc + dm).

(** The sum is taken from left to right, as [reduce] takes it.  In [Z] the
    order of the additions is immaterial; in the doubles of the code it is
    so when every partial sum is an integer below 2^53, as it is for pairs
    of valid ["HH:MM"] fields, which count at most 1439 minutes each. *)
Definition sumDayMinutes (entry : DayEntry) : option Z :=
  reduce addPairMinutes (pairs entry) 0.

(** The duration shown per pair in the CSV export and in the day panel
    (App.jsx, line 229); [%] is the truncating remainder. *)
Definition csvPairMinutes (p : TimePair) : option Z :=
  if JS.truthy (start p) && JS.truthy (end_ p) then
    e ← toMinutes (end_ p);
    s ← toMinutes (start p);
    Some (Z.rem (e - s + 1440) 1440)
  else Some 0.

(** ** Aggregation (App.jsx, lines 131-137) *)

Record Overtime := mkOvertime {
  total : Z;
  target : Z;
  delta : Z
}.

(** [arr.filter(f)] for a predicate whose result may lie outside the
    embedding. *)
Fixpoint filterM {A : Type} (f : A → option bool) (l : list A)
  : option (list A) :=
  match l with
  | [] => Some []
  | x :: r =>
      b ← f x;
      r' ← filterM f r;
      Some (if b : bool then x :: r' else r')
  end.

(** [dailyTargetMinutes] is a whole number here, as the target field of the
    form and the initial state give it ([toMinutes] of a time, and 480).  An
    imported target can be any JSON number; with a fractional one the code
    computes in rounded doubles, which this embedding does not describe. *)
Definition overtimeFor (dailyTargetMinutes : Z) (entriesList : list DayEntry)
  : option Overtime :=
  total ← reduce (λ acc e, m ← sumDayMinutes e; Some (acc + m)) entriesList 0;
  worked ← filterM (λ e, m ← sumDayMinutes e; Some (0 <? m)) entriesList;
  let workedDays := Z.of_nat (length worked) in
  let target := workedDays * dailyTargetMinutes in
  Some (mkOvertime total target (total - target)).

(** ** State updaters (App.jsx, lines 113, 148-222, 268)

    Each [setEntries(prev => ...)] is the function from [prev] to the next
    entries; returning [prev] itself is "no change". *)

Section Updaters.

Variable selectedDate : string.

(** [prev.findIndex(e => e.date === selectedDate)], with the record found;
    [None] is the index [-1]. *)
Definition findSelected (prev : list DayEntry) : option (nat * DayEntry) :=
  list_find (λ e, date e = selectedDate) prev.

Definition todayEntry (entries : list DayEntry) : DayEntry :=
  match findSelected entries with
  | Some (_, e) => e
  | None => mkDayEntry selectedDate [] None
  end.

Definition withPairs (e : DayEntry) (ps : list TimePair) : DayEntry :=
  mkDayEntry (date e) ps (note e).

(** [now] is the result of [nowHHMM()]. *)
Definition addStartNow (now : string) (prev : list DayEntry) : list DayEntry :=
  match findSelected prev with
  | None =>
      prev ++ [mkDayEntry selectedDate [mkTimePair (Some now) None] None]
  | Some (idx, e) =>
      let next :=
        <[idx := withPairs e (pairs e ++ [mkTimePair (Some now) None])]> prev in
      match last (pairs e) with
      | Some p => if negb (JS.truthy (end_ p)) then prev else next
      | None => next
      end
  end.

Definition addEmptyPair (prev : list DayEntry) : list DayEntry :=
  let fresh := mkTimePair (Some "08:00") (Some "16:00") in
  match findSelected prev with
  | None => prev ++ [mkDayEntry selectedDate [fresh] None]
  | Some (idx, e) => <[idx := withPairs e (pairs e ++ [fresh])]> prev
  end.

Definition clearDay (prev : list DayEntry) : list DayEntry :=
  map (λ e, if decide (date e = selectedDate) then withPairs e [] else e) prev.

Definition isOpen (p : TimePair) : bool :=
  JS.truthy (start p) && negb (JS.truthy (end_ p)).

Definition hasOpenPair (entries : list DayEntry) : bool :=
  existsb isOpen (pairs (todayEntry entries)).

End Updaters.

(** ** The [Date] object, as far as the calendar helpers use it

    A [Date] is its time value: milliseconds since 1970-01-01T00:00Z.  Local
    time is the time value minus [tzOffset] minutes, where [tzOffset] is what
    [getTimezoneOffset()] returns (UTC minus local time, [-60] for UTC+1).
    The offset is taken as constant over the days involved. *)

Module JSDate.

Definition msPerDay : Z := 86400000.
Definition msPerMinute : Z := 60000.

(** Day number of a date of the proleptic Gregorian calendar (MakeDay). *)
Definition dayFromCivil (y m d : Z) : Z :=
  let y' := if m <=? 2 then y - 1 else y in
  let era := y' / 400 in
  let yoe := y' - era * 400 in
  let mp := if 2 <? m then m - 3 else m + 9 in
  let doy := (153 * mp + 2) / 5 + d - 1 in
  let doe := yoe * 365 + yoe / 4 - yoe / 100 + doy in
  era * 146097 + doe - 719468.

(** Year, month and day of the month of a day number (YearFromTime,
    MonthFromTime, DateFromTime). *)
Definition civilFromDay (z : Z) : Z * Z * Z :=
  let z := z + 719468 in
  let era := z / 146097 in
  let doe := z - era * 146097 in
  let yoe := (doe - doe / 1460 + doe / 36524 - doe / 146096) / 365 in
  let doy := doe - (365 * yoe + yoe / 4 - yoe / 100) in
  let mp := (5 * doy + 2) / 153 in
  let d := doy - (153 * mp + 2) / 5 + 1 in
  let m := if mp <? 10 then mp + 3 else mp - 9 in
  let y := yoe + era * 400 in
  (if m <=? 2 then y + 1 else y, m, d).

(** Day of the week of a day number, Sunday = 0 (WeekDay). *)
Definition weekDay (day : Z) : Z := (day + 4) mod 7.

Definition isLeap (y : Z) : bool :=
  (y mod 4 =? 0) && (negb (y mod 100 =? 0) || (y mod 400 =? 0)).

Definition daysInMonth (y m : Z) : Z :=
  if m =? 2 then (if isLeap y then 29 else 28)
  else if (m =? 4) || (m =? 6) || (m =? 9) || (m =? 11) then 30
  else 31.

(** Reads exactly [n] decimal digits. *)
Fixpoint readDigits (n : nat) (acc : Z) (s : string) : option (Z * string) :=
  match n with
  | O => Some (acc, s)
  | S k =>
      match s with
      | String c r =>
          if JS.is_digit c then readDigits k (10 * acc + JS.digit_val c) r
          else None
      | EmptyString => None
      end
  end.

Definition expect (c : ascii) (s : string) : option string :=
  match s with
  | String c' r => if Ascii.eqb c c' then Some r else None
  | EmptyString => None
  end.

(** ["YYYY-MM-DD"] naming a day of the calendar; [None] otherwise (for such
    text [new Date] gives an invalid date, or a result that depends on the
    engine). *)
Definition parseYMD (s : string) : option (Z * Z * Z) :=
  '(y, s) ← readDigits 4 0 s;
  s ← expect "-" s;
  '(m, s) ← readDigits 2 0 s;
  s ← expect "-" s;
  '(d, s) ← readDigits 2 0 s;
  if String.eqb s EmptyString && (1 <=? m) && (m <=? 12) && (1 <=? d)
     && (d <=? daysInMonth y m)
  then Some (y, m, d) else None.

(** [d.toISOString().slice(0, 10)], the UTC date of a time value; [None]
    outside the years 0000-9999, where the ISO text has an expanded year. *)
Definition toISODate (t : Z) : option string :=
  let '(y, m, d) := civilFromDay (t / msPerDay) in
  if (0 <=? y) && (y <=? 9999) then
    Some (JS.padStart 4 "0" (JS.toString y) ++ "-"
          ++ JS.padStart 2 "0" (JS.toString m) ++ "-"
          ++ JS.padStart 2 "0" (JS.toString d))
  else None.

Section Zone.

Variable tzOffset : Z.

Definition localTime (t : Z) : Z := t - tzOffset * msPerMinute.
Definition utcTime (l : Z) : Z := l + tzOffset * msPerMinute.

(** [new Date(s + "T00:00:00")]: a date-time without zone designator is
    local time. *)
Definition localMidnight (s : string) : option Z :=
  '(y, m, d) ← parseYMD s;
  Some (utcTime (dayFromCivil y m d * msPerDay)).

Definition getDay (t : Z) : Z := weekDay (localTime t / msPerDay).

Definition getDate (t : Z) : Z :=
  let '(_, _, d) := civilFromDay (localTime t / msPerDay) in d.

(** [d.setDate(n)]: day [n] of the local month of [d], counted on beyond the
    month's ends, at the local time of day of [d]. *)
Definition setDate (t n : Z) : Z :=
  let l := localTime t in
  let '(y, m, _) := civilFromDay (l / msPerDay) in
  utcTime ((dayFromCivil y m 1 + n - 1) * msPerDay + l mod msPerDay).

End Zone.

End JSDate.

(** ** Calendar grouping (App.jsx, lines 46-51 and 115-126) *)

Section Calendar.

(** The result of [getTimezoneOffset()] in the browser. *)
Variable tzOffset : Z.

Definition startOfWeek (dateStr : string) : option string :=
  d ← JSDate.localMidnight tzOffset dateStr;
  let day := Z.rem (JSDate.getDay tzOffset d + 6) 7 in
  let d := JSDate.setDate tzOffset d (JSDate.getDate tzOffset d - day) in
  JSDate.toISODate d.

(** The dates [ymd] of the loop in [weekEntries]. *)
Definition weekDates (selectedDate : string) : option (list string) :=
  sow ← startOfWeek selectedDate;
  d0 ← JSDate.localMidnight tzOffset sow;
  mapM (λ i, JSDate.toISODate
               (JSDate.setDate tzOffset d0 (JSDate.getDate tzOffset d0 + i)))
       (seqZ 0 7).

Definition weekEntries (entries : list DayEntry) (selectedDate : string)
  : option (list DayEntry) :=
  ds ← weekDates selectedDate;
  Some (map (λ ymd, todayEntry ymd entries) ds).

End Calendar.

(** The day of the week of a date string, Sunday = 0, Monday = 1. *)
Definition weekDayOf (s : string) : option Z :=
  '(y, m, d) ← JSDate.parseYMD s;
  Some (JSDate.weekDay (JSDate.dayFromCivil y m d)).

(** ** JSON import (App.jsx, lines 242-257)

    The handler reads the file, parses it and looks at two properties of the
    result.  [JSON.parse] is the engine's: the [onload] callback is embedded
    on its outcome, [None] when it throws a [SyntaxError].  The payload of a
    JSON number is never inspected by the handler, so its type is a
    parameter. *)

Module JsonImport.

Section Handler.

#[local] Set Warnings "-register-all".

Variable number : Type.

Inductive json :=
| JNull
| JBool (b : bool)
| JNum (n : number)
| JStr (s : string)
| JArr (items : list json)
| JObj (members : list (string * json)).

(** What a property read [data.k] can give. *)
Inductive property :=
| PUndefined
| PValue (v : json)
| PMethod.

(** The own property [k] of a parsed object: of duplicate names in the
    text, [JSON.parse] keeps the last. *)
Fixpoint ownProperty (k : string) (members : list (string * json))
  : option json :=
  match members with
  | [] => None
  | (k', v) :: r =>
      match ownProperty k r with
      | Some v' => Some v'
      | None => if String.eqb k k' then Some v else None
      end
  end.

(** [data.k] for the two names the handler reads, [entries] and
    [dailyTargetMinutes]; [None] is the [TypeError] of reading a property of
    [null].  Neither name is inherited by an object, a boolean, a number or
    a string; an array inherits the method [entries]. *)
Definition getProperty (data : json) (k : string) : option property :=
  match data with
  | JNull => None
  | JObj members =>
      Some (match ownProperty k members with
            | Some v => PValue v
            | None => PUndefined
            end)
  | JArr _ => Some (if String.eqb k "entries" then PMethod else PUndefined)
  | _ => Some PUndefined
  end.

(** The state the handler writes: what [setEntries] and
    [setDailyTargetMinutes] hold.  [setEntries(data.entries)] stores the
    parsed array as it is; its elements are not looked at. *)
Record State := mkState {
  entries : list json;
  dailyTargetMinutes : number
}.

Definition alertText : string := "Ungültige JSON-Datei".

(** How the body of the [try] ends. *)
Inductive completion :=
| Returned
| Thrown.

(** The body of the [try], statement by statement: the state after it and
    how it ended.  A state written before a throw stays written. *)
Definition tryBody (parsed : option json) (st : State) : State * completion :=
  match parsed with
  | None => (st, Thrown)
  | Some data =>
      match getProperty data "entries" with
      | None => (st, Thrown)
      | Some pe =>
          let st := match pe with
                    | PValue (JArr items) =>
                        mkState items (dailyTargetMinutes st)
                    | _ => st
                    end in
          match getProperty data "dailyTargetMinutes" with
          | None => (st, Thrown)
          | Some pt =>
              (match pt with
               | PValue (JNum n) => mkState (entries st) n
               | _ => st
               end, Returned)
          end
      end
  end.

(** [reader.onload]: the next state and the alerts shown. *)
Definition handleImportJSON (parsed : option json) (st : State)
  : State * list string :=
  match tryBody parsed st with
  | (st', Returned) => (st', [])
  | (st', Thrown) => (st', [alertText])
  end.

End Handler.

Arguments JNull {number}.
Arguments JBool {number} b.
Arguments JNum {number} n.
Arguments JStr {number} s.
Arguments JArr {number} items.
Arguments JObj {number} members.
Arguments PUndefined {number}.
Arguments PValue {number} v.
Arguments PMethod {number}.
Arguments mkState {number} _ _.
Arguments entries {number} _.
Arguments dailyTargetMinutes {number} _.
Arguments handleImportJSON {number} parsed st.
Arguments tryBody {number} parsed st.
Arguments getProperty {number} data k.
Arguments ownProperty {number} k members.

End JsonImport.

(** ** Vocabulary of the specification *)

(** The contribution of one pair to the day total: what the callback of
    [sumDayMinutes] adds to an accumulator. *)
Definition periodMinutes (p : TimePair) : option Z := addPairMinutes 0 p.

(** A zero-padded ["HH:MM"] with hours 00-23 and minutes 00-59. *)
Definition validHHMM (x : string) : bool :=
  match x with
  | String a (String b (String col (String c (String d EmptyString)))) =>
      JS.is_digit a && JS.is_digit b && Ascii.eqb col ":"
      && JS.is_digit c && JS.is_digit d
      && (10 * JS.digit_val a + JS.digit_val b <? 24)
      && (10 * JS.digit_val c + JS.digit_val d <? 60)
  | _ => false
  end.

(** Zero-padded two-digit rendering, as [minutesToHHMM] does it. *)
Definition pad2 (n : Z) : string := JS.padStart 2 "0" (JS.toString n).

Definition Zsum (l : list Z) : Z := foldr Z.add 0 l.

(** A time field as the time inputs and [nowHHMM] produce it: absent, empty
    or a valid ["HH:MM"]. *)
Definition wellTimed (t : option string) : bool :=
  match t with
  | None => true
  | Some s => String.eqb s EmptyString || validHHMM s
  end.

Definition wellTimedEntry (e : DayEntry) : bool :=
  forallb (λ p, wellTimed (start p) && wellTimed (end_ p)) (pairs e).

(** [r] names a Monday that is the day [s] or one of the six days before. *)
Definition mondayOnOrBefore (s r : string) : bool :=
  match JSDate.parseYMD s, JSDate.parseYMD r with
  | Some (y, m, d), Some (y', m', d') =>
      let a := JSDate.dayFromCivil y m d in
      let b := JSDate.dayFromCivil y' m' d' in
      (JSDate.weekDay b =? 1) && (b <=? a) && (a <? b + 7)
  | _, _ => false
  end.

Definition occurrences (s : string) (l : list string) : nat :=
  length (filter (λ x, x = s) l).

(** What the specification asks of the week of [s], for a clock at
    [tzOffset]: it starts on the Monday on or before [s], and its dates
    begin there and hold [s] once. *)
Definition weekAsSpecified (tzOffset : Z) (s : string) : bool :=
  match startOfWeek tzOffset s, weekDates tzOffset s with
  | Some r, Some ds =>
      mondayOnOrBefore s r && bool_decide (head ds = Some r)
      && (occurrences s ds =? 1)%nat
  | _, _ => false
  end.

(** The 366 dates of the year 2024. *)
Definition datesOf2024 : list string :=
  omap (λ i, JSDate.toISODate
               ((JSDate.dayFromCivil 2024 1 1 + i) * JSDate.msPerDay))
       (seqZ 0 366).

(** The number of days with a positive total. *)
Definition workedDayCount (l : list Z) : Z :=
  Z.of_nat (length (filter (λ d, 0 < d) l)).

(** The array a parsed document offers as [entries], if it offers one. *)
Definition importedEntries {number} (data : JsonImport.json number)
  : option (list (JsonImport.json number)) :=
  match JsonImport.getProperty data "entries" with
  | Some (JsonImport.PValue (JsonImport.JArr items)) => Some items
  | _ => None
  end.

(** The number a parsed document offers as [dailyTargetMinutes], if any. *)
Definition importedTarget {number} (data : JsonImport.json number)
  : option number :=
  match JsonImport.getProperty data "dailyTargetMinutes" with
  | Some (JsonImport.PValue (JsonImport.JNum n)) => Some n
  | _ => None
  end.

(** A stored day without pairs, as [JSON.parse] delivers it. *)
Definition storedDay (date : string) : JsonImport.json Z :=
  JsonImport.JObj
    [("date", JsonImport.JStr date); ("pairs", JsonImport.JArr [])].

(** What [addEmptyPair] and an unguarded [addStartNow] do to the selected
    day: its pairs gain [p] at the end, and a day not yet stored is stored
    with that one pair. *)
Definition appendToday (selectedDate : string) (p : TimePair)
  (prev : list DayEntry) : list DayEntry :=
  match findSelected selectedDate prev with
  | None => prev ++ [mkDayEntry selectedDate [p] None]
  | Some (idx, e) => <[idx := withPairs e (pairs e ++ [p])]> prev
  end.

(** A stable insertion sort by date in byte order, the order
    [localeCompare] gives on ISO dates: one possible [sortByDate] of
    [ensureDay]. *)
Fixpoint insertByDate (e : DayEntry) (l : list DayEntry) : list DayEntry :=
  match l with
  | [] => [e]
  | x :: r =>
      if String.ltb (date e) (date x) then e :: l else x :: insertByDate e r
  end.

Definition sortByDateBytes (l : list DayEntry) : list DayEntry :=
  foldl (λ acc e, insertByDate e acc) [] l.

(** The number of CSV rows a day gives. *)
Definition rowCount (e : DayEntry) : nat := Nat.max 1 (length (pairs e)).

(** ** Further helpers of App.jsx (lines 14-19, 53-55, 63-68) *)

(** [nowHHMM], on the [getHours()] and [getMinutes()] of the clock. *)
Definition nowHHMM (hours minutes : Z) : string :=
  JS.padStart 2 "0" (JS.toString hours) ++ ":"
  ++ JS.padStart 2 "0" (JS.toString minutes).

(** [monthKey]: [dateStr.slice(0, 7)]. *)
Definition monthKey (dateStr : string) : string := substring 0 7 dateStr.

(** [todayYMD], on the time value [now] of [new Date()] and the offset the
    clock reports for it. *)
Definition todayYMD (tzOffset now : Z) : option string :=
  let local := now - tzOffset * JSDate.msPerMinute in
  JSDate.toISODate local.

(** [monthEntries] (line 128). *)
Definition monthEntries (selectedDate : string) (entries : list DayEntry)
  : list DayEntry :=
  filter (λ e, monthKey (date e) = monthKey selectedDate) entries.

(** The "Saldo" cell of one row of the week table (lines 376-378). *)
Definition rowDelta (dailyTargetMinutes m : Z) : Z :=
  m - (if 0 <? m then dailyTargetMinutes else 0).

(** ** The range in which the balances are exact

    The code computes with doubles.  Sums, differences and products of
    integers are exact there as long as operands and results stay below
    2^53 in absolute value ([Number.isSafeInteger]); on such numbers the
    arithmetic of [Z] is the arithmetic of the code. *)
Definition safeInteger (z : Z) : bool := Z.abs z <? 2 ^ 53.

(** The number of pairs of a list of days. *)
Definition pairCount (l : list DayEntry) : Z :=
  Zsum ((λ e, Z.of_nat (length (pairs e))) <$> l).

(** Days and a whole-numbered daily target whose balance stays in that
    range: the time fields are as the time inputs deliver them, so that a
    pair counts at most 1439 minutes, and the largest total and the largest
    target these days can give are safe integers together. *)
Definition exactBalance (dailyTargetMinutes : Z) (l : list DayEntry) : bool :=
  forallb wellTimedEntry l
  && safeInteger (1439 * pairCount l
                  + Z.abs dailyTargetMinutes * Z.of_nat (length l)).

(** ** Further state updaters (App.jsx, lines 105-111, 165-218) *)

Section MoreUpdaters.

Variable selectedDate : string.

(** [arr.filter((x, j) => f(x, j))], counting indices from [j]. *)
Fixpoint filterIndexed {A : Type} (f : A → nat → bool) (j : nat) (l : list A)
  : list A :=
  match l with
  | [] => []
  | x :: r =>
      if f x j then x :: filterIndexed f (S j) r else filterIndexed f (S j) r
  end.

(** The effect "ensure current day exists".  [sortByDate] is
    [arr.sort((a, b) => a.date.localeCompare(b.date))]: the order depends
    on the collation of the engine's locale, so the sort is a parameter. *)
Definition ensureDay (sortByDate : list DayEntry → list DayEntry)
  (prev : list DayEntry) : list DayEntry :=
  if existsb (λ e, String.eqb (date e) selectedDate) prev then prev
  else sortByDate (prev ++ [mkDayEntry selectedDate [] None])%list.

Definition addEndNow (now : string) (prev : list DayEntry) : list DayEntry :=
  match findSelected selectedDate prev with
  | None => prev
  | Some (idx, e) =>
      match last (pairs e) with
      | None => prev
      | Some l =>
          if JS.truthy (end_ l) then prev
          else
            let l := mkTimePair (start l) (Some now) in
            <[idx := withPairs e (removelast (pairs e) ++ [l])]> prev
      end
  end.

(** The [key] argument of [setPair]. *)
Inductive pairKey :=
| KeyStart
| KeyEnd.

(** [{ ...p, [key]: val }]. *)
Definition withKey (key : pairKey) (val : string) (p : TimePair) : TimePair :=
  match key with
  | KeyStart => mkTimePair (Some val) (end_ p)
  | KeyEnd => mkTimePair (start p) (Some val)
  end.

Definition setPair (i : nat) (key : pairKey) (val : string)
  (prev : list DayEntry) : list DayEntry :=
  match findSelected selectedDate prev with
  | None => prev
  | Some (idx, e) =>
      let pairs :=
        imap (λ j p, if (j =? i)%nat then withKey key val p else p) (pairs e) in
      <[idx := withPairs e pairs]> prev
  end.

Definition deletePair (i : nat) (prev : list DayEntry) : list DayEntry :=
  match findSelected selectedDate prev with
  | None => prev
  | Some (idx, e) =>
      <[idx := withPairs e
                 (filterIndexed (λ _ j, negb (j =? i)%nat) 0 (pairs e))]> prev
  end.

End MoreUpdaters.

(** ** Persistence and CSV export (App.jsx, lines 89-98, 224-235) *)

Module Storage.

(** The double quote and the line feed. *)
Definition dquote : ascii := ascii_of_nat 34.
Definition newline : ascii := ascii_of_nat 10.

(** [x || EmptyString] for an optional string. *)
Definition orEmpty (x : option string) : string :=
  match x with
  | Some s => s
  | None => EmptyString
  end.

(** [String(n)] for an integer. *)
Definition numberToString (n : Z) : string :=
  if n <? 0 then "-" ++ JS.toString (- n) else JS.toString n.

(** [c.replaceAll(q, q + q)] for the double quote [q]. *)
Fixpoint escapeQuotes (c : string) : string :=
  match c with
  | EmptyString => EmptyString
  | String a r =>
      if Ascii.eqb a dquote then String dquote (String dquote (escapeQuotes r))
      else String a (escapeQuotes r)
  end.

(** One cell of the CSV text: the escaped text between double quotes. *)
Definition csvCell (c : string) : string :=
  String dquote (escapeQuotes c ++ String dquote EmptyString).

(** [arr.join(sep)]. *)
Fixpoint join (sep : string) (l : list string) : string :=
  match l with
  | [] => EmptyString
  | [x] => x
  | x :: r => x ++ sep ++ join sep r
  end.

Definition csvHeader : list string :=
  ["Datum"; "Start"; "Ende"; "Dauer [min]"; "Dauer [hh:mm]"].

(** The row pushed for one pair. *)
Definition pairRow (date : string) (p : TimePair) : option (list string) :=
  dm ← csvPairMinutes p;
  Some [date; orEmpty (start p); orEmpty (end_ p);
        numberToString dm; minutesToHHMM dm].

(** The rows pushed for one entry: a placeholder when it has no pair, and
    one row per pair. *)
Definition entryRows (e : DayEntry) : option (list (list string)) :=
  rows ← mapM (pairRow (date e)) (pairs e);
  Some (app (if (length (pairs e) =? 0)%nat
             then [[date e; EmptyString; EmptyString; "0"; "00:00"]] else [])
            rows).

Definition csvRows (entries : list DayEntry) : option (list (list string)) :=
  rows ← mapM entryRows entries;
  Some (csvHeader :: concat rows).

(** The text handed to [download] by [handleExportCSV]. *)
Definition handleExportCSV (entries : list DayEntry) : option string :=
  rows ← csvRows entries;
  Some (join (String newline EmptyString)
          (map (λ r, join ";" (map csvCell r)) rows)).

(** Reads a cell back: the text between the outer quotes, with each doubled
    quote read as one; [None] when the text is not a quoted cell. *)
Fixpoint unescapeBody (s : string) : option string :=
  match s with
  | EmptyString => None
  | String a r =>
      if Ascii.eqb a dquote then
        match r with
        | EmptyString => Some EmptyString
        | String b r' =>
            if Ascii.eqb b dquote
            then c ← unescapeBody r'; Some (String dquote c)
            else None
        end
      else c ← unescapeBody r; Some (String a c)
  end.

Definition readCell (s : string) : option string :=
  match s with
  | String a r => if Ascii.eqb a dquote then unescapeBody r else None
  | EmptyString => None
  end.

Section Documents.

Context {number : Type}.

(** The loading effect (lines 89-98): [stored] is [None] when the key holds
    nothing, and else the outcome of [JSON.parse] on the item; a throw is
    ignored. *)
Definition loadStored (stored : option (option (JsonImport.json number)))
  (st : JsonImport.State number) : JsonImport.State number :=
  match stored with
  | None => st
  | Some parsed => (JsonImport.tryBody parsed st).1
  end.

End Documents.

End Storage.

(** The ten digit characters. *)
Definition digit_chars : list ascii := list_ascii_of_string "0123456789".

(** ** Vocabulary and decision procedures for the calendar proofs *)

(** The text of a date, as [toISODate] prints it. *)
Definition pad4 (n : Z) : string := JS.padStart 4 "0" (JS.toString n).

Definition isoText (ymd : Z * Z * Z) : string :=
  let '(y, m, d) := ymd in
  JS.padStart 4 "0" (JS.toString y) ++ "-"
  ++ JS.padStart 2 "0" (JS.toString m) ++ "-"
  ++ JS.padStart 2 "0" (JS.toString d).

(** The text of the day with a given day number. *)
Definition isoDay (day : Z) : string := isoText (JSDate.civilFromDay day).

(** The day number of a date text. *)
Definition dayNumber (s : string) : option Z :=
  '(y, m, d) ← JSDate.parseYMD s;
  Some (JSDate.dayFromCivil y m d).

(** The day numbers of 0000-01-01 and of 9999-12-31. *)
Definition firstDay : Z := -719528.
Definition lastDay : Z := 2932896.

(** A date of the calendar. *)
Definition validDate (y m d : Z) : Prop :=
  1 <= m <= 12 ∧ 1 <= d <= JSDate.daysInMonth y m.



Module CalendarCheck.

(** [f] holds of the [p] integers from [base] on. *)
Fixpoint allFrom (f : Z → bool) (base : Z) (p : positive) : bool :=
  match p with
  | xH => f base
  | xO q => allFrom f base q && allFrom f (base + Zpos q) q
  | xI q =>
      f base && allFrom f (base + 1) q && allFrom f (base + 1 + Zpos q) q
  end.

Definition beforeMarch (m : Z) : Z := if m <=? 2 then 1 else 0.

(** The first day of a year of the era, years running from March. *)
Definition yearStart (yoe : Z) : Z := yoe * 365 + yoe / 4 - yoe / 100.

(** The number of days of such a year: its February is that of the next
    calendar year. *)
Definition yearLen (yoe : Z) : Z :=
  if JSDate.isLeap (yoe + 1) then 366 else 365.

Definition doyOfCivil (m d : Z) : Z :=
  let mp := if 2 <? m then m - 3 else m + 9 in
  (153 * mp + 2) / 5 + d - 1.

(** [dayFromCivil] within one era of 400 years. *)
Definition doeOfCivil (yoe m d : Z) : Z := yearStart yoe + doyOfCivil m d.

Definition yearOfDoe (doe : Z) : Z :=
  (doe - doe / 1460 + doe / 36524 - doe / 146096) / 365.

Definition monthDayOfDoy (doy : Z) : Z * Z :=
  let mp := (5 * doy + 2) / 153 in
  let d := doy - (153 * mp + 2) / 5 + 1 in
  let m := if mp <? 10 then mp + 3 else mp - 9 in
  (m, d).

(** [civilFromDay] within one era of 400 years. *)
Definition civilOfDoe (doe : Z) : Z * Z * Z :=
  let yoe := yearOfDoe doe in
  let doy := doe - (365 * yoe + yoe / 4 - yoe / 100) in
  let '(m, d) := monthDayOfDoy doy in
  (if m <=? 2 then yoe + 1 else yoe, m, d).

(** The longest a month can be. *)
Definition maxDays (m : Z) : Z :=
  if m =? 2 then 29
  else if (m =? 4) || (m =? 6) || (m =? 9) || (m =? 11) then 30
  else 31.

(** What holds of each year of an era: its first and its last day are
    found in it, and the next year starts where it ends. *)
Definition checkYear (yoe : Z) : bool :=
  (0 <=? yearStart yoe)
  && (yearOfDoe (yearStart yoe) =? yoe)
  && (yearOfDoe (yearStart yoe + yearLen yoe - 1) =? yoe)
  && (yearStart yoe + yearLen yoe
      =? (if yoe =? 399 then 146097 else yearStart (yoe + 1))).

(** What holds of each day of a month. *)
Definition checkMonthDay (m d : Z) : bool :=
  if d <=? maxDays m then
    let doy := doyOfCivil m d in
    (0 <=? doy) && (doy <=? 365)
    && bool_decide (monthDayOfDoy doy = (m, d))
    && Bool.eqb (doy =? 365) ((m =? 2) && (d =? 29))
    && Bool.eqb (306 <=? doy) (m <=? 2)
  else true.

(** What holds of each day of a year. *)
Definition checkDoy (doy : Z) : bool :=
  let '(m, d) := monthDayOfDoy doy in
  (1 <=? m) && (m <=? 12) && (1 <=? d) && (d <=? maxDays m)
  && (doyOfCivil m d =? doy).
(** Four digits print as the number they spell, padded. *)
Definition checkDigits4 (a b c d : ascii) : bool :=
  String.eqb
    (pad4 (10 * (10 * (10 * JS.digit_val a + JS.digit_val b)
                 + JS.digit_val c) + JS.digit_val d))
    (String a (String b (String c (String d EmptyString)))).

(** A number below 10000 prints, padded, as four digits that spell it. *)
Definition checkPad4 (y : Z) : bool :=
  match pad4 y with
  | String a (String b (String c (String d EmptyString))) =>
      JS.is_digit a && JS.is_digit b && JS.is_digit c && JS.is_digit d
      && (10 * (10 * (10 * JS.digit_val a + JS.digit_val b)
                + JS.digit_val c) + JS.digit_val d =? y)
  | _ => false
  end.

Definition checkPad2 (n : Z) : bool :=
  match pad2 n with
  | String a (String b EmptyString) =>
      JS.is_digit a && JS.is_digit b
      && (10 * JS.digit_val a + JS.digit_val b =? n)
  | _ => false
  end.

(** A time of day prints as a valid ["HH:MM"] that reads back as itself. *)
Definition checkMinutes (n : Z) : bool :=
  validHHMM (minutesToHHMM n)
  && bool_decide (toMinutes (Some (minutesToHHMM n)) = Some n).

End CalendarCheck.

(** ** Time arithmetic: proofs *)

Section TimeArithmetic.

Lemma digit_cases c : JS.is_digit c = true → In c digit_chars.
Proof.
  destruct c as [[] [] [] [] [] [] [] []]; try discriminate;
    intros _; vm_compute; tauto.
Qed.

(** Case analysis on a character known to be a digit. *)
Local Ltac digit_case H :=
  apply digit_cases in H; cbv [digit_chars list_ascii_of_string In] in H;
  repeat (destruct H as [<-|H]; [|]); [..|destruct H].

Lemma digit_not_colon c : JS.is_digit c = true → Ascii.eqb c ":" = false.
Proof. intros H. digit_case H; reflexivity. Qed.

Lemma digit_val_range c : JS.is_digit c = true → 0 <= JS.digit_val c <= 9.
Proof. intros H. digit_case H; vm_compute; split; discriminate. Qed.

(** Two digits read back as the number they spell. *)
Lemma Number_two_digits a b :
  JS.is_digit a = true → JS.is_digit b = true →
  JS.Number (String a (String b EmptyString))
  = Some (JS.Num (10 * JS.digit_val a + JS.digit_val b)).
Proof. intros Ha Hb. digit_case Ha; digit_case Hb; reflexivity. Qed.

(** A number below 100 spelled by two digits prints as those digits. *)
Lemma pad2_two_digits a b :
  JS.is_digit a = true → JS.is_digit b = true →
  pad2 (10 * JS.digit_val a + JS.digit_val b)
  = String a (String b EmptyString).
Proof. intros Ha Hb. digit_case Ha; digit_case Hb; reflexivity. Qed.

Lemma toMinutes_valid a b c d :
  JS.is_digit a = true → JS.is_digit b = true →
  JS.is_digit c = true → JS.is_digit d = true →
  toMinutes
    (Some (String a (String b (String ":" (String c (String d EmptyString))))))
  = Some ((10 * JS.digit_val a + JS.digit_val b) * 60
          + (10 * JS.digit_val c + JS.digit_val d)).
Proof.
  intros Ha Hb Hc Hd.
  unfold toMinutes.
  change (JS.truthy (Some (String a ?r))) with true.
  cbn [negb].
  cbn [JS.split].
  rewrite (digit_not_colon a Ha), (digit_not_colon b Hb),
    (digit_not_colon c Hc), (digit_not_colon d Hd).
  change (Ascii.eqb ":" ":") with true. cbn iota beta.
  rewrite (Number_two_digits a b Ha Hb), (Number_two_digits c d Hc Hd).
  reflexivity.
Qed.

Lemma minutesToHHMM_nonneg h m :
  0 <= h → 0 <= m < 60 →
  minutesToHHMM (h * 60 + m) = pad2 h ++ ":" ++ pad2 m.
Proof.
  intros Hh Hm. unfold minutesToHHMM, pad2.
  assert (Hv : 0 <= h * 60 + m) by lia.
  destruct (Z.ltb_spec (h * 60 + m) 0) as [|_]; [lia|].
  rewrite (Z.abs_eq _ Hv).
  replace ((h * 60 + m) / 60) with h
    by (apply Z.div_unique with m; lia).
  replace (Z.rem (h * 60 + m) 60) with m; [reflexivity|].
  rewrite Z.rem_mod_nonneg by lia.
  apply Z.mod_unique with h; lia.
Qed.

Lemma validHHMM_inv x :
  validHHMM x = true →
  ∃ a b c d,
    x = String a (String b (String ":" (String c (String d EmptyString))))
    ∧ JS.is_digit a = true ∧ JS.is_digit b = true
    ∧ JS.is_digit c = true ∧ JS.is_digit d = true
    ∧ 10 * JS.digit_val a + JS.digit_val b < 24
    ∧ 10 * JS.digit_val c + JS.digit_val d < 60.
Proof.
  destruct x as [|a [|b [|col [|c [|d [|? ?]]]]]]; try discriminate.
  cbn [validHHMM]. rewrite !andb_true_iff, Ascii.eqb_eq, !Z.ltb_lt.
  intros [[[[[[Ha Hb] ->] Hc] Hd] Hh] Hm].
  exists a, b, c, d. repeat split; assumption.
Qed.

(** C5. For every zero-padded ["HH:MM"] with hours 00-23 and minutes 00-59,
    [minutesToHHMM (toMinutes x)] is [x] again; for every negative number
    [minutesToHHMM] prints ["-"] and then the zero-padded hours and minutes
    of the absolute value, so that [minutesToHHMM (-65)] is ["-01:05"]. *)
Theorem minutesToHHMM_toMinutes_roundtrip :
  (∀ x, validHHMM x = true → minutesToHHMM <$> toMinutes (Some x) = Some x)
  ∧ (∀ n, n < 0 →
       minutesToHHMM n
       = "-" ++ pad2 (Z.abs n / 60) ++ ":" ++ pad2 (Z.rem (Z.abs n) 60))
  ∧ (∀ n, n < 0 → minutesToHHMM n = "-" ++ minutesToHHMM (- n))
  ∧ minutesToHHMM (-65) = "-01:05".
Proof.
  split; [|split; [|split; [|reflexivity]]].
  - intros x Hx.
    destruct (validHHMM_inv x Hx)
      as (a & b & c & d & -> & Ha & Hb & Hc & Hd & Hh & Hm).
    rewrite (toMinutes_valid a b c d Ha Hb Hc Hd).
    cbn [fmap option_fmap option_map].
    pose proof (digit_val_range a Ha). pose proof (digit_val_range b Hb).
    pose proof (digit_val_range c Hc). pose proof (digit_val_range d Hd).
    rewrite minutesToHHMM_nonneg by lia.
    rewrite (pad2_two_digits a b Ha Hb), (pad2_two_digits c d Hc Hd).
    reflexivity.
  - intros n Hn. unfold minutesToHHMM, pad2.
    destruct (Z.ltb_spec n 0) as [_|]; [reflexivity | lia].
  - intros n Hn. unfold minutesToHHMM. rewrite Z.abs_opp.
    destruct (Z.ltb_spec n 0) as [_|]; [|lia].
    destruct (Z.ltb_spec (- n) 0) as [|_]; [lia | reflexivity].
Qed.

Lemma minutesToHHMM_toMinutes_roundtrip_witness :
  minutesToHHMM <$> toMinutes (Some "23:59") = Some "23:59"
  ∧ minutesToHHMM (-125) = "-02:05".
Proof.
  split.
  - apply (proj1 minutesToHHMM_toMinutes_roundtrip "23:59"). reflexivity.
  - apply (proj1 (proj2 minutesToHHMM_toMinutes_roundtrip) (-125)). lia.
Defined.

(** C6, as the code has it.  Text that is not a well-formed ["HH:MM"] is not
    always read as [0]: a field that spells a number counts. *)
Lemma toMinutes_malformed_nonzero :
  validHHMM "12" = false ∧ toMinutes (Some "12") = Some 720
  ∧ validHHMM "7:5" = false ∧ toMinutes (Some "7:5") = Some 425
  ∧ validHHMM "25:61" = false ∧ toMinutes (Some "25:61") = Some 1561.
Proof. repeat split. Qed.

(** What [toMinutes] computes from the two fields it reads: each field
    counts with the number it spells and with [0] otherwise, whatever the
    other field is. *)
Lemma toMinutes_fields s f0 fs h m :
  JS.split ":" s = (f0, fs) →
  JS.Number f0 = Some h →
  match head fs with
  | Some f1 => JS.Number f1
  | None => Some JS.Undefined
  end = Some m →
  toMinutes (Some s) = Some (JS.orZero h * 60 + JS.orZero m).
Proof.
  intros Hs H0 H1. unfold toMinutes.
  destruct s as [|c r].
  - cbn in Hs. injection Hs as <- <-. cbn in H0, H1.
    injection H0 as <-. injection H1 as <-. reflexivity.
  - change (JS.truthy (Some (String c r))) with true. cbn [negb].
    rewrite Hs, H0. cbn [mbind option_bind].
    destruct fs as [|f1 fs']; cbn [head] in H1; rewrite H1; reflexivity.
Qed.

(** C6, amended.  [toMinutes] has no failing path.  It returns [0] for an
    absent or empty input.  Any other text is split at [":"] and only its
    first two fields are read, each on its own: a field that spells a number
    counts with that number, a field that is missing or spells no number
    counts as [0], and the result is hours times 60 plus minutes.  So the
    result is [0] when neither field spells a number, the minutes alone when
    only the minute field does, the hours times 60 when only the hour field
    does, and [h * 60 + m] when both do, with no check of the ["HH:MM"] form
    or of the ranges.  A number is returned whenever the fields read are
    within the embedding of [Number]. *)
Theorem toMinutes_defaults :
  toMinutes None = Some 0
  ∧ toMinutes (Some EmptyString) = Some 0
  ∧ (∀ s f0 fs,
       JS.split ":" s = (f0, fs) →
       JS.Number f0 = Some JS.NaN →
       (∀ f1, head fs = Some f1 → JS.Number f1 = Some JS.NaN) →
       toMinutes (Some s) = Some 0)
  ∧ (∀ s f0 f1 fs m,
       JS.split ":" s = (f0, f1 :: fs) →
       JS.Number f0 = Some JS.NaN →
       JS.Number f1 = Some (JS.Num m) →
       toMinutes (Some s) = Some m)
  ∧ (∀ s f0 fs h,
       JS.split ":" s = (f0, fs) →
       JS.Number f0 = Some (JS.Num h) →
       (∀ f1, head fs = Some f1 → JS.Number f1 = Some JS.NaN) →
       toMinutes (Some s) = Some (h * 60))
  ∧ (∀ s f0 f1 fs h m,
       JS.split ":" s = (f0, f1 :: fs) →
       JS.Number f0 = Some (JS.Num h) →
       JS.Number f1 = Some (JS.Num m) →
       toMinutes (Some s) = Some (h * 60 + m))
  ∧ (∀ s f0 fs,
       JS.split ":" s = (f0, fs) →
       is_Some (JS.Number f0) →
       (∀ f1, head fs = Some f1 → is_Some (JS.Number f1)) →
       is_Some (toMinutes (Some s))).
Proof.
  assert (Hmissing : ∀ fs : list string,
    (∀ f1, head fs = Some f1 → JS.Number f1 = Some JS.NaN) →
    ∃ m, match head fs with
         | Some f1 => JS.Number f1
         | None => Some JS.Undefined
         end = Some m ∧ JS.orZero m = 0).
  { intros [|f1 fs] H; cbn [head].
    - exists JS.Undefined. split; reflexivity.
    - exists JS.NaN. split; [apply H|]; reflexivity. }
  split; [reflexivity|]. split; [reflexivity|].
  split; [|split; [|split; [|split]]].
  - intros s f0 fs Hs H0 H1.
    destruct (Hmissing fs H1) as (m & Hm & Em).
    rewrite (toMinutes_fields s f0 fs _ _ Hs H0 Hm), Em. reflexivity.
  - intros s f0 f1 fs m Hs H0 H1.
    rewrite (toMinutes_fields s f0 (f1 :: fs) _ _ Hs H0 H1). reflexivity.
  - intros s f0 fs h Hs H0 H1.
    destruct (Hmissing fs H1) as (m & Hm & Em).
    rewrite (toMinutes_fields s f0 fs _ _ Hs H0 Hm), Em.
    cbn [JS.orZero]. f_equal. lia.
  - intros s f0 f1 fs h m Hs H0 H1.
    rewrite (toMinutes_fields s f0 (f1 :: fs) _ _ Hs H0 H1). reflexivity.
  - intros s f0 fs Hs [h H0] H1.
    assert (Hm : ∃ m, match head fs with
                      | Some f1 => JS.Number f1
                      | None => Some JS.Undefined
                      end = Some m).
    { destruct fs as [|f1 fs']; cbn [head]; [eexists; reflexivity|].
      destruct (H1 f1 eq_refl) as [m ->]. eexists; reflexivity. }
    destruct Hm as [m Hm].
    rewrite (toMinutes_fields s f0 fs _ _ Hs H0 Hm). eexists; reflexivity.
Qed.

Lemma toMinutes_defaults_witness :
  toMinutes (Some "acht:dreissig") = Some 0
  ∧ toMinutes (Some "xx:30") = Some 30
  ∧ toMinutes (Some "12") = Some (12 * 60)
  ∧ toMinutes (Some "8:xx:1.5") = Some (8 * 60)
  ∧ toMinutes (Some "25:61") = Some (25 * 60 + 61)
  ∧ is_Some (toMinutes (Some "8:xx:1.5")).
Proof.
  destruct toMinutes_defaults as (_ & _ & Hnone & Hmin & Hhour & Hboth & Hsome).
  split; [|split; [|split; [|split; [|split]]]].
  - apply (Hnone "acht:dreissig" "acht" ["dreissig"]).
    + reflexivity.
    + reflexivity.
    + intros f1 [= <-]. reflexivity.
  - apply (Hmin "xx:30" "xx" "30" []); reflexivity.
  - apply (Hhour "12" "12" []).
    + reflexivity.
    + reflexivity.
    + intros f1 [=].
  - apply (Hhour "8:xx:1.5" "8" ["xx"; "1.5"]).
    + reflexivity.
    + reflexivity.
    + intros f1 [= <-]. reflexivity.
  - apply (Hboth "25:61" "25" "61" []); reflexivity.
  - apply (Hsome "8:xx:1.5" "8" ["xx"; "1.5"]).
    + reflexivity.
    + eexists; reflexivity.
    + intros f1 [= <-]. eexists; reflexivity.
Defined.

End TimeArithmetic.

(** ** Durations: proofs *)

Section Durations.

Lemma addPairMinutes_shift acc p :
  addPairMinutes acc p = (λ d, acc + d) <$> periodMinutes p.
Proof.
  unfold periodMinutes, addPairMinutes.
  destruct (negb (JS.truthy (start p)) || negb (JS.truthy (end_ p))).
  - cbn. f_equal. lia.
  - destruct (toMinutes (end_ p)) as [e|]; [|reflexivity].
    destruct (toMinutes (start p)) as [s|]; reflexivity.
Qed.

(** C4. A pair lacking its start or its end contributes 0 to the day total;
    any other pair contributes end minus start in minutes, plus 1440 when
    that difference is negative.  08:00-16:30 contributes 510, 22:00-06:00
    contributes 480 and an open 08:00 contributes 0. *)
Theorem periodMinutes_spec :
  (∀ acc p, addPairMinutes acc p = (λ d, acc + d) <$> periodMinutes p)
  ∧ (∀ p, JS.truthy (start p) = false ∨ JS.truthy (end_ p) = false →
          periodMinutes p = Some 0)
  ∧ (∀ p s e,
       JS.truthy (start p) = true → JS.truthy (end_ p) = true →
       toMinutes (start p) = Some s → toMinutes (end_ p) = Some e →
       periodMinutes p = Some (if e - s <? 0 then e - s + 1440 else e - s))
  ∧ periodMinutes (mkTimePair (Some "08:00") (Some "16:30")) = Some 510
  ∧ periodMinutes (mkTimePair (Some "22:00") (Some "06:00")) = Some 480
  ∧ periodMinutes (mkTimePair (Some "08:00") None) = Some 0
  ∧ sumDayMinutes (mkDayEntry "2024-01-03"
        [mkTimePair (Some "08:00") (Some "16:30");
         mkTimePair (Some "22:00") (Some "06:00");
         mkTimePair (Some "08:00") None] None) = Some 990.
Proof.
  split; [exact addPairMinutes_shift|].
  split; [|split; [|repeat split]].
  - intros p H. unfold periodMinutes, addPairMinutes.
    destruct H as [-> | ->]; cbn [negb orb]; [reflexivity|].
    rewrite orb_true_r. reflexivity.
  - intros p s e Hs He Ts Te. unfold periodMinutes, addPairMinutes.
    rewrite Hs, He, Ts, Te. cbn [negb orb mbind option_bind].
    change (24 * 60) with 1440. reflexivity.
Qed.

Lemma periodMinutes_spec_witness :
  periodMinutes (mkTimePair None (Some "16:30")) = Some 0
  ∧ periodMinutes (mkTimePair (Some "23:15") (Some "00:45")) = Some 90.
Proof.
  split.
  - apply (proj1 (proj2 periodMinutes_spec)). left. reflexivity.
  - apply (proj1 (proj2 (proj2 periodMinutes_spec))
             (mkTimePair (Some "23:15") (Some "00:45")) 1395 45);
      reflexivity.
Defined.

(** C9. When start and end both read as minutes within 0-1439, the duration
    of the CSV export, [(end - start + 1440) % 1440], is the contribution
    [sumDayMinutes] counts for the pair. *)
Theorem csvPairMinutes_periodMinutes p s e :
  toMinutes (start p) = Some s → toMinutes (end_ p) = Some e →
  0 <= s <= 1439 → 0 <= e <= 1439 →
  csvPairMinutes p = periodMinutes p ∧ is_Some (periodMinutes p).
Proof.
  intros Ts Te Hs He. unfold csvPairMinutes, periodMinutes, addPairMinutes.
  rewrite Ts, Te.
  destruct (JS.truthy (start p)), (JS.truthy (end_ p));
    cbn [negb orb andb mbind option_bind];
    try (split; [reflexivity | eexists; reflexivity]).
  split; [|eexists; reflexivity]. f_equal.
  rewrite Z.rem_mod_nonneg by lia.
  destruct (Z.ltb_spec (e - s) 0).
  - rewrite Z.mod_small by lia. lia.
  - replace (e - s + 1440) with (e - s + 1 * 1440) by lia.
    rewrite Z.mod_add by lia. rewrite Z.mod_small by lia. lia.
Qed.

Lemma csvPairMinutes_periodMinutes_witness :
  csvPairMinutes (mkTimePair (Some "22:00") (Some "06:00"))
  = periodMinutes (mkTimePair (Some "22:00") (Some "06:00"))
  ∧ is_Some (periodMinutes (mkTimePair (Some "22:00") (Some "06:00"))).
Proof.
  apply (csvPairMinutes_periodMinutes
           (mkTimePair (Some "22:00") (Some "06:00")) 1320 360);
    [reflexivity | reflexivity | lia | lia].
Defined.

End Durations.

(** ** Aggregation: proofs *)

Section Aggregation.

Lemma reduce_totals l : ∀ ds acc,
  mapM sumDayMinutes l = Some ds →
  reduce (λ acc e, m ← sumDayMinutes e; Some (acc + m)) l acc
  = Some (acc + Zsum ds).
Proof.
  induction l as [|e l IH]; intros ds acc H; cbn in H |- *.
  - injection H as <-. unfold Zsum. cbn [foldr]. f_equal. lia.
  - destruct (sumDayMinutes e) as [m|]; [|discriminate]. cbn in H |- *.
    destruct (mapM sumDayMinutes l) as [ds'|]; [|discriminate].
    injection H as <-. rewrite (IH ds' (acc + m) eq_refl).
    unfold Zsum. cbn [foldr]. f_equal. lia.
Qed.

Lemma filterM_worked l : ∀ ds,
  mapM sumDayMinutes l = Some ds →
  ∃ w, filterM (λ e, m ← sumDayMinutes e; Some (0 <? m)) l = Some w
       ∧ Z.of_nat (length w) = workedDayCount ds.
Proof.
  induction l as [|e l IH]; intros ds H; cbn in H |- *.
  - injection H as <-. exists []. split; reflexivity.
  - destruct (sumDayMinutes e) as [m|]; [|discriminate]. cbn in H |- *.
    destruct (mapM sumDayMinutes l) as [ds'|]; [|discriminate].
    injection H as <-. destruct (IH ds' eq_refl) as (w & -> & Hw).
    cbn. unfold workedDayCount in *. rewrite filter_cons.
    destruct (Z.ltb_spec 0 m); destruct (decide (0 < m)); try lia;
      eexists; (split; [reflexivity|]); cbn [length]; lia.
Qed.

Lemma toMinutes_wellTimed t : wellTimed t = true → is_Some (toMinutes t).
Proof.
  destruct t as [s|]; [|eexists; reflexivity]. cbn [wellTimed].
  intros [->%String.eqb_eq | Hv]%orb_true_iff; [eexists; reflexivity|].
  destruct (validHHMM_inv s Hv) as (a & b & c & d & -> & Ha & Hb & Hc & Hd & _).
  rewrite (toMinutes_valid a b c d Ha Hb Hc Hd). eexists; reflexivity.
Qed.

Lemma addPairMinutes_wellTimed acc p :
  wellTimed (start p) = true → wellTimed (end_ p) = true →
  is_Some (addPairMinutes acc p).
Proof.
  intros Hs He. unfold addPairMinutes.
  destruct (toMinutes_wellTimed _ Hs) as [zs ->].
  destruct (toMinutes_wellTimed _ He) as [ze ->].
  destruct (negb _ || negb _); eexists; reflexivity.
Qed.

Lemma sumDayMinutes_wellTimed e :
  wellTimedEntry e = true → is_Some (sumDayMinutes e).
Proof.
  unfold wellTimedEntry, sumDayMinutes. generalize 0.
  induction (pairs e) as [|p ps IH]; intros acc H; [eexists; reflexivity|].
  cbn [forallb] in H. apply andb_true_iff in H as [[Hs He]%andb_true_iff Hps].
  cbn [reduce].
  destruct (addPairMinutes_wellTimed acc p Hs He) as [acc' ->].
  cbn [mbind option_bind]. apply IH, Hps.
Qed.

Lemma mapM_sumDayMinutes_wellTimed l :
  forallb wellTimedEntry l = true → is_Some (mapM sumDayMinutes l).
Proof.
  induction l as [|e l IH]; intros H; [eexists; reflexivity|].
  cbn [forallb] in H. apply andb_true_iff in H as [He Hl].
  destruct (sumDayMinutes_wellTimed e He) as [m Hm].
  destruct (IH Hl) as [ds Hds]. exists (m :: ds).
  cbn. rewrite Hm. cbn. rewrite Hds. reflexivity.
Qed.

(** C7. [overtimeFor] returns the sum of the day totals as [total], the
    daily target times the number of days with a positive total as
    [target], and their difference as [delta]; for no records at all it
    returns 0, 0 and 0, whatever the daily target.  It returns a result for
    every list of records whose time fields are absent, empty or valid
    ["HH:MM"]. *)
Theorem overtimeFor_spec :
  (∀ dailyTarget l ds,
     mapM sumDayMinutes l = Some ds →
     overtimeFor dailyTarget l
     = Some (mkOvertime (Zsum ds)
                        (workedDayCount ds * dailyTarget)
                        (Zsum ds - workedDayCount ds * dailyTarget)))
  ∧ (∀ dailyTarget, overtimeFor dailyTarget [] = Some (mkOvertime 0 0 0))
  ∧ (∀ dailyTarget l,
       forallb wellTimedEntry l = true →
       ∃ ds, mapM sumDayMinutes l = Some ds
             ∧ is_Some (overtimeFor dailyTarget l)).
Proof.
  assert (Hspec : ∀ dailyTarget l ds,
     mapM sumDayMinutes l = Some ds →
     overtimeFor dailyTarget l
     = Some (mkOvertime (Zsum ds)
                        (workedDayCount ds * dailyTarget)
                        (Zsum ds - workedDayCount ds * dailyTarget))).
  { intros dailyTarget l ds H. unfold overtimeFor.
    rewrite (reduce_totals l ds 0 H).
    destruct (filterM_worked l ds H) as (w & -> & Hw).
    cbn [mbind option_bind]. rewrite Hw, Z.add_0_l. reflexivity. }
  split; [exact Hspec|]. split; [reflexivity|].
  intros dailyTarget l Hl.
  destruct (mapM_sumDayMinutes_wellTimed l Hl) as [ds Hds].
  exists ds. split; [exact Hds|]. rewrite (Hspec _ _ _ Hds). eexists; reflexivity.
Qed.

Lemma overtimeFor_spec_witness :
  overtimeFor 480
    [mkDayEntry "2024-01-01" [mkTimePair (Some "08:00") (Some "16:00")] None;
     mkDayEntry "2024-01-02" [] None;
     mkDayEntry "2024-01-03" [mkTimePair (Some "22:00") (Some "07:30")] None]
  = Some (mkOvertime 1050 960 90)
  ∧ ∃ ds, mapM sumDayMinutes
            [mkDayEntry "2024-01-04"
               [mkTimePair (Some "08:00") (Some "12:00");
                mkTimePair (Some "13:00") (Some EmptyString)] None] = Some ds
          ∧ is_Some (overtimeFor 480
               [mkDayEntry "2024-01-04"
                  [mkTimePair (Some "08:00") (Some "12:00");
                   mkTimePair (Some "13:00") (Some EmptyString)] None]).
Proof.
  split.
  - apply (proj1 overtimeFor_spec 480 _ [480; 0; 570]). reflexivity.
  - apply (proj2 (proj2 overtimeFor_spec) 480). reflexivity.
Defined.

End Aggregation.

(** ** State updaters: proofs *)

Section UpdaterFacts.

Variable selectedDate : string.

(** C10. [clearDay] keeps the number of records; a record of the selected
    date keeps its date and its note and loses its pairs; a record of any
    other date stays as it is. *)
Theorem clearDay_frame (prev : list DayEntry) :
  length (clearDay selectedDate prev) = length prev
  ∧ (∀ i e, prev !! i = Some e → date e = selectedDate →
       clearDay selectedDate prev !! i
       = Some (mkDayEntry (date e) [] (note e)))
  ∧ (∀ i e, prev !! i = Some e → date e ≠ selectedDate →
       clearDay selectedDate prev !! i = Some e).
Proof.
  unfold clearDay. split; [apply length_map|].
  split; intros i e Hi He; rewrite list_lookup_fmap, Hi;
    cbn [fmap option_fmap option_map];
    destruct (decide (date e = selectedDate));
    first [reflexivity | contradiction].
Qed.

Lemma findSelected_todayEntry (entries : list DayEntry) idx e :
  findSelected selectedDate entries = Some (idx, e) →
  todayEntry selectedDate entries = e.
Proof. unfold todayEntry. intros ->. reflexivity. Qed.

Lemma hasOpenPair_iff (entries : list DayEntry) :
  hasOpenPair selectedDate entries = true
  ↔ ∃ p, p ∈ pairs (todayEntry selectedDate entries) ∧ isOpen p = true.
Proof.
  unfold hasOpenPair. rewrite existsb_exists.
  split; intros (p & Hp & Ho); exists p; split; try assumption;
    by apply list_elem_of_In.
Qed.

(** C3, amended.  [addStartNow] looks at the last pair of the selected day
    only: when that pair has no end the entries stay as they are, and
    otherwise (a last pair with an end, or no pair yet) a pair holding the
    current time as start is appended to that day.  [hasOpenPair], which
    disables the buttons, holds exactly when some pair of the day has a
    start and no end; a last pair with a start and no end is one such pair,
    and then [addStartNow] changes nothing. *)
Theorem addStartNow_guard :
  (∀ now prev idx e p,
     findSelected selectedDate prev = Some (idx, e) →
     last (pairs e) = Some p → JS.truthy (end_ p) = false →
     addStartNow selectedDate now prev = prev)
  ∧ (∀ now prev idx e,
       findSelected selectedDate prev = Some (idx, e) →
       (∀ p, last (pairs e) = Some p → JS.truthy (end_ p) = true) →
       addStartNow selectedDate now prev
       = <[idx := withPairs e (pairs e ++ [mkTimePair (Some now) None])]> prev)
  ∧ (∀ entries,
       hasOpenPair selectedDate entries = true
       ↔ ∃ p, p ∈ pairs (todayEntry selectedDate entries) ∧ isOpen p = true)
  ∧ (∀ entries p,
       last (pairs (todayEntry selectedDate entries)) = Some p →
       isOpen p = true →
       hasOpenPair selectedDate entries = true
       ∧ ∀ now, addStartNow selectedDate now entries = entries).
Proof.
  split; [|split; [|split; [exact hasOpenPair_iff|]]].
  - intros now prev idx e p Hf Hl He. unfold addStartNow.
    rewrite Hf, Hl, He. reflexivity.
  - intros now prev idx e Hf Hl. unfold addStartNow. rewrite Hf.
    destruct (last (pairs e)) as [p|]; [|reflexivity].
    rewrite (Hl p eq_refl). reflexivity.
  - intros entries p Hl Ho. split.
    + apply hasOpenPair_iff. exists p. split; [|assumption].
      apply last_Some in Hl as [l' ->].
      apply elem_of_app. right. apply list_elem_of_singleton. reflexivity.
    + intros now. unfold addStartNow. unfold todayEntry in Hl.
      destruct (findSelected selectedDate entries) as [[idx e]|];
        [|discriminate].
      rewrite Hl. unfold isOpen in Ho. apply andb_true_iff in Ho as [_ Ho].
      rewrite Ho. reflexivity.
Qed.

End UpdaterFacts.

Lemma clearDay_frame_witness :
  clearDay "2024-01-03"
    [mkDayEntry "2024-01-02" [mkTimePair (Some "08:00") (Some "12:00")] None;
     mkDayEntry "2024-01-03" [mkTimePair (Some "09:00") None] (Some "Büro")]
    !! 1%nat
  = Some (mkDayEntry "2024-01-03" [] (Some "Büro"))
  ∧ clearDay "2024-01-03"
      [mkDayEntry "2024-01-02" [mkTimePair (Some "08:00") (Some "12:00")] None;
       mkDayEntry "2024-01-03" [mkTimePair (Some "09:00") None] (Some "Büro")]
      !! 0%nat
    = Some (mkDayEntry "2024-01-02"
              [mkTimePair (Some "08:00") (Some "12:00")] None).
Proof.
  split.
  - apply (proj1 (proj2 (clearDay_frame "2024-01-03" _)) 1%nat
             (mkDayEntry "2024-01-03" [mkTimePair (Some "09:00") None]
                (Some "Büro")));
      reflexivity.
  - apply (proj2 (proj2 (clearDay_frame "2024-01-03" _)) 0%nat);
      [reflexivity | discriminate].
Defined.

(** C3, as the code has it.  After "Kommen jetzt" at 09:00 and "Paar
    hinzufügen" the day holds an open pair followed by a closed one:
    [hasOpenPair] holds, the last pair is not open, and [addStartNow] adds
    a further pair. *)
Lemma addStartNow_open_pair_not_last :
  let day := "2024-01-03" in
  let st := addEmptyPair day (addStartNow day "09:00" [mkDayEntry day [] None]) in
  hasOpenPair day st = true
  ∧ last (pairs (todayEntry day st))
    = Some (mkTimePair (Some "08:00") (Some "16:00"))
  ∧ isOpen (mkTimePair (Some "08:00") (Some "16:00")) = false
  ∧ addStartNow day "10:00" st ≠ st.
Proof. vm_compute. repeat split. discriminate. Qed.

Lemma addStartNow_guard_witness :
  let day := "2024-01-03" in
  let st := [mkDayEntry day [mkTimePair (Some "09:00") None] None] in
  addStartNow day "10:00" st = st
  ∧ hasOpenPair day st = true.
Proof.
  cbv zeta. split.
  - apply (proj1 (addStartNow_guard "2024-01-03") "10:00" _ 0%nat
             (mkDayEntry "2024-01-03" [mkTimePair (Some "09:00") None] None)
             (mkTimePair (Some "09:00") None)); reflexivity.
  - apply (proj2 (proj2 (proj2 (addStartNow_guard "2024-01-03"))) _
             (mkTimePair (Some "09:00") None)); reflexivity.
Defined.

(** ** JSON import: proofs *)

Section ImportFacts.

Import JsonImport.

Context {number : Type}.

Implicit Types (data : json number) (st : State number).

Lemma handleImportJSON_parsed data st :
  data ≠ JNull →
  handleImportJSON (Some data) st
  = (mkState (default (entries st) (importedEntries data))
             (default (dailyTargetMinutes st) (importedTarget data)), []).
Proof.
  intros Hd. unfold handleImportJSON, tryBody, importedEntries, importedTarget.
  destruct data as [|b|n|s|items|members]; try congruence; cbn [getProperty];
    try (destruct st; reflexivity).
  destruct (ownProperty "entries" members) as [[]|];
      destruct (ownProperty "dailyTargetMinutes" members) as [[]|];
      destruct st; reflexivity.
Qed.

(** C1, amended.  The import applies the two fields one by one.  A file
    that does not parse, or that holds [null], leaves the whole state as it
    was and raises the alert.  For any other document, [entries] is replaced
    exactly when the document offers an array and [dailyTargetMinutes]
    exactly when it offers a number, each whatever the other field is; so
    the state is replaced as a whole when both are well-shaped and is left
    as it was when neither is. *)
Theorem handleImportJSON_fieldwise st :
  handleImportJSON None st = (st, [alertText])
  ∧ handleImportJSON (Some JNull) st = (st, [alertText])
  ∧ (∀ data, data ≠ JNull →
       handleImportJSON (Some data) st
       = (mkState (default (entries st) (importedEntries data))
                  (default (dailyTargetMinutes st) (importedTarget data)), []))
  ∧ (∀ data items n,
       importedEntries data = Some items → importedTarget data = Some n →
       handleImportJSON (Some data) st = (mkState items n, []))
  ∧ (∀ data,
       data ≠ JNull →
       importedEntries data = None → importedTarget data = None →
       handleImportJSON (Some data) st = (st, [])).
Proof.
  split; [reflexivity|]. split; [reflexivity|].
  split; [intros; by apply handleImportJSON_parsed|]. split.
  - intros data items n He Ht.
    rewrite handleImportJSON_parsed by (intros ->; discriminate).
    rewrite He, Ht. reflexivity.
  - intros data Hd He Ht. rewrite (handleImportJSON_parsed _ _ Hd), He, Ht.
    destruct st; reflexivity.
Qed.

(** C2, amended.  A parsed document without an array under [entries] leaves
    the records as they were.  The alert is raised when the document is
    [null], and then the target stays too; for every other such document no
    message is shown. *)
Theorem handleImportJSON_without_entries data st :
  importedEntries data = None →
  entries (handleImportJSON (Some data) st).1 = entries st
  ∧ (data = JNull → handleImportJSON (Some data) st = (st, [alertText]))
  ∧ (data ≠ JNull → (handleImportJSON (Some data) st).2 = []).
Proof.
  intros He. split; [|split].
  - destruct data as [|b|n|s|items|members];
      try (rewrite handleImportJSON_parsed by discriminate; rewrite He);
      reflexivity.
  - intros ->. reflexivity.
  - intros Hd. rewrite (handleImportJSON_parsed _ _ Hd). reflexivity.
Qed.

End ImportFacts.

Section ImportExamples.

Import JsonImport.

(** C1, as the code has it.  A document whose [entries] is an array and
    whose [dailyTargetMinutes] is a string: the records are replaced and the
    target keeps its prior value, with no alert. *)
Lemma handleImportJSON_applies_one_field :
  let doc := JObj [("entries", JArr [storedDay "2024-02-01"]);
                   ("dailyTargetMinutes", JStr "450")] in
  let st := mkState [storedDay "2024-01-03"] 480 in
  let st' := (handleImportJSON (Some doc) st).1 in
  entries st' = [storedDay "2024-02-01"]
  ∧ entries st' ≠ entries st
  ∧ dailyTargetMinutes st' = dailyTargetMinutes st
  ∧ (handleImportJSON (Some doc) st).2 = [].
Proof. vm_compute. repeat split. discriminate. Qed.

Lemma handleImportJSON_fieldwise_witness :
  let doc := JObj [("entries", JArr [storedDay "2024-02-01"]);
                   ("dailyTargetMinutes", JNum 450)] in
  let st := mkState [storedDay "2024-01-03"] 480 in
  handleImportJSON (Some doc) st
  = (mkState [storedDay "2024-02-01"] 450, [])
  ∧ handleImportJSON (Some (JStr "entries")) st = (st, []).
Proof.
  cbv zeta. split.
  - apply (proj1 (proj2 (proj2 (proj2 (handleImportJSON_fieldwise _)))));
      reflexivity.
  - apply (proj2 (proj2 (proj2 (proj2 (handleImportJSON_fieldwise _)))));
      [discriminate | reflexivity | reflexivity].
Defined.

(** C2, as the code has it.  The document [{}] has no [entries]; the
    import changes nothing and shows no message. *)
Lemma handleImportJSON_silent_without_entries :
  let st := mkState [storedDay "2024-01-03"] 480 in
  importedEntries (JObj [] : json Z) = None
  ∧ handleImportJSON (Some (JObj [])) st = (st, []).
Proof. split; reflexivity. Qed.

Lemma handleImportJSON_without_entries_witness :
  let doc := JObj [("entries", JStr "none"); ("dailyTargetMinutes", JNum 450)] in
  let st := mkState [storedDay "2024-01-03"] 480 in
  entries (handleImportJSON (Some doc) st).1 = entries st
  ∧ (handleImportJSON (Some doc) st).2 = [].
Proof.
  cbv zeta.
  pose proof (handleImportJSON_without_entries
    (JObj [("entries", JStr "none"); ("dailyTargetMinutes", JNum 450)])
    (mkState [storedDay "2024-01-03"] 480) eq_refl) as (H1 & _ & H3).
  split; [exact H1 | apply H3; discriminate].
Defined.

End ImportExamples.

(** ** Calendar grouping: the week in a zone east of UTC *)

(** C8.  With the clock on UTC, the week of Wednesday 2024-01-03 starts on
    Monday 2024-01-01, and the week of Saturday 2024-01-06 lists that day.
    With the clock one hour east of UTC ([getTimezoneOffset() = -60]) the
    local midnight of the Monday lies on the evening before in UTC, which is
    the date [toISOString] prints: [startOfWeek] returns Sunday 2023-12-31,
    and the seven dates of the week of Saturday 2024-01-06 run from
    2023-12-30 to 2024-01-05 and do not contain that Saturday.  Over the
    366 dates of 2024, the week is as specified for every date on UTC and
    for no date one hour east of it. *)
Theorem startOfWeek_east_of_UTC :
  startOfWeek 0 "2024-01-03" = Some "2024-01-01"
  ∧ weekDayOf "2024-01-01" = Some 1
  ∧ startOfWeek (-60) "2024-01-03" = Some "2023-12-31"
  ∧ weekDayOf "2023-12-31" = Some 0
  ∧ weekDates 0 "2024-01-06"
    = Some ["2024-01-01"; "2024-01-02"; "2024-01-03"; "2024-01-04";
            "2024-01-05"; "2024-01-06"; "2024-01-07"]
  ∧ weekDates (-60) "2024-01-06"
    = Some ["2023-12-30"; "2023-12-31"; "2024-01-01"; "2024-01-02";
            "2024-01-03"; "2024-01-04"; "2024-01-05"]
  ∧ (∀ ds, weekDates (-60) "2024-01-06" = Some ds → "2024-01-06" ∉ ds)
  ∧ length datesOf2024 = 366%nat
  ∧ forallb (weekAsSpecified 0) datesOf2024 = true
  ∧ existsb (weekAsSpecified (-60)) datesOf2024 = false.
Proof.
  do 6 (split; [vm_compute; reflexivity|]).
  split.
  - intros ds H. vm_compute in H. injection H as <-.
    rewrite list_elem_of_In. cbn [In]. intros H.
    repeat (destruct H as [H|H]; [discriminate H|]). exact H.
  - do 2 (split; [vm_compute; reflexivity|]). vm_compute; reflexivity.
Qed.

(** ** Durations: further properties of [sumDayMinutes] *)

Section DayTotals.

Lemma reduce_addPairMinutes_app ps : ∀ p acc,
  reduce addPairMinutes (ps ++ [p]) acc
  = t ← reduce addPairMinutes ps acc; addPairMinutes t p.
Proof.
  induction ps as [|q ps IH]; intros p acc; cbn [app reduce].
  - cbn [mbind option_bind]. destruct (addPairMinutes acc p); reflexivity.
  - destruct (addPairMinutes acc q) as [acc'|]; cbn [mbind option_bind];
      [apply IH | reflexivity].
Qed.

Lemma sumDayMinutes_snoc e p :
  sumDayMinutes (withPairs e (pairs e ++ [p]))
  = t ← sumDayMinutes e; d ← periodMinutes p; Some (t + d).
Proof.
  unfold sumDayMinutes. cbn [pairs withPairs].
  rewrite reduce_addPairMinutes_app.
  destruct (reduce addPairMinutes (pairs e) 0) as [t|]; [|reflexivity].
  cbn [mbind option_bind]. rewrite addPairMinutes_shift.
  destruct (periodMinutes p); reflexivity.
Qed.

Lemma addPairMinutes_swap acc p q :
  (t ← addPairMinutes acc p; addPairMinutes t q)
  = (t ← addPairMinutes acc q; addPairMinutes t p).
Proof.
  rewrite (addPairMinutes_shift acc p), (addPairMinutes_shift acc q).
  destruct (periodMinutes p) as [a|] eqn:Hp, (periodMinutes q) as [b|] eqn:Hq;
    cbn [fmap option_fmap option_map mbind option_bind];
    rewrite ?addPairMinutes_shift, ?Hp, ?Hq; try reflexivity.
  cbn. f_equal. lia.
Qed.

Lemma reduce_addPairMinutes_perm ps ps' :
  ps ≡ₚ ps' →
  ∀ acc, reduce addPairMinutes ps acc = reduce addPairMinutes ps' acc.
Proof.
  induction 1 as [|p ps ps' _ IH|p q ps|ps ps' ps'' _ IH1 _ IH2]; intros acc.
  - reflexivity.
  - cbn [reduce]. destruct (addPairMinutes acc p); [apply IH | reflexivity].
  - cbn [reduce].
    transitivity ((t ← addPairMinutes acc q; addPairMinutes t p)
                  ≫= reduce addPairMinutes ps).
    { destruct (addPairMinutes acc q); reflexivity. }
    rewrite addPairMinutes_swap.
    destruct (addPairMinutes acc p); reflexivity.
  - rewrite IH1. apply IH2.
Qed.

(** X4.  With time fields as the time inputs deliver them, the day total is
    produced and does not depend on the order of the pairs.  Every pair then
    counts a whole number of minutes between 0 and 1439, and adding such
    numbers is exact in the doubles of the code; with fractional or very
    large minute values the code's sum would depend on the order. *)
Theorem sumDayMinutes_order_independent e e' :
  wellTimedEntry e = true →
  pairs e ≡ₚ pairs e' →
  ∃ t, sumDayMinutes e = Some t ∧ sumDayMinutes e' = Some t.
Proof.
  intros Hw H. destruct (sumDayMinutes_wellTimed e Hw) as [t Ht].
  exists t. split; [exact Ht|]. rewrite <- Ht. symmetry.
  apply reduce_addPairMinutes_perm, H.
Qed.

Lemma sumDayMinutes_order_independent_witness :
  ∃ t,
    sumDayMinutes (mkDayEntry "2024-01-03"
      [mkTimePair (Some "08:00") (Some "12:00");
       mkTimePair (Some "13:00") (Some "17:30")] None) = Some t
    ∧ sumDayMinutes (mkDayEntry "2024-01-03"
        [mkTimePair (Some "13:00") (Some "17:30");
         mkTimePair (Some "08:00") (Some "12:00")] (Some "getauscht"))
      = Some t.
Proof.
  apply sumDayMinutes_order_independent; [reflexivity|].
  cbn [pairs]. apply perm_swap.
Defined.

Lemma toMinutes_wellTimed_range t :
  wellTimed t = true → ∃ v, toMinutes t = Some v ∧ 0 <= v <= 1439.
Proof.
  destruct t as [s|]; [|exists 0; split; [reflexivity | lia]].
  cbn [wellTimed].
  intros [->%String.eqb_eq | Hv]%orb_true_iff;
    [exists 0; split; [reflexivity | lia]|].
  destruct (validHHMM_inv s Hv)
    as (a & b & c & d & -> & Ha & Hb & Hc & Hd & Hh & Hm).
  rewrite (toMinutes_valid a b c d Ha Hb Hc Hd).
  pose proof (digit_val_range a Ha). pose proof (digit_val_range b Hb).
  pose proof (digit_val_range c Hc). pose proof (digit_val_range d Hd).
  eexists; split; [reflexivity | lia].
Qed.

Lemma periodMinutes_wellTimed_range p :
  wellTimed (start p) = true → wellTimed (end_ p) = true →
  ∃ d, periodMinutes p = Some d ∧ 0 <= d <= 1439.
Proof.
  intros Hs He. unfold periodMinutes, addPairMinutes.
  destruct (toMinutes_wellTimed_range _ Hs) as (s & -> & Rs).
  destruct (toMinutes_wellTimed_range _ He) as (e & -> & Re).
  destruct (negb _ || negb _); cbn [mbind option_bind].
  - exists 0. split; [reflexivity | lia].
  - eexists; split; [reflexivity|]. destruct (Z.ltb_spec (e - s) 0); lia.
Qed.

(** X5.  With time fields as the time inputs deliver them, every pair counts
    between 0 and 1439 minutes, so the day total exists and lies between 0
    and 1439 times the number of pairs. *)
Theorem sumDayMinutes_bounds e :
  wellTimedEntry e = true →
  ∃ t, sumDayMinutes e = Some t
       ∧ 0 <= t <= 1439 * Z.of_nat (length (pairs e)).
Proof.
  unfold wellTimedEntry, sumDayMinutes.
  assert (G : ∀ ps acc,
    forallb (λ p, wellTimed (start p) && wellTimed (end_ p)) ps = true →
    ∃ t, reduce addPairMinutes ps acc = Some t
         ∧ acc <= t <= acc + 1439 * Z.of_nat (length ps)).
  { induction ps as [|p ps IH]; intros acc H.
    - exists acc. split; [reflexivity | cbn; lia].
    - cbn [forallb] in H.
      apply andb_true_iff in H as [[Hs He]%andb_true_iff Hps].
      destruct (periodMinutes_wellTimed_range p Hs He) as (d & Hd & Rd).
      cbn [reduce]. rewrite addPairMinutes_shift, Hd.
      cbn [fmap option_fmap option_map mbind option_bind].
      destruct (IH (acc + d) Hps) as (t & -> & Rt).
      exists t. split; [reflexivity|]. cbn [length]. lia. }
  intros H. destruct (G (pairs e) 0 H) as (t & -> & Rt).
  exists t. split; [reflexivity | lia].
Qed.

Lemma sumDayMinutes_bounds_witness :
  ∃ t, sumDayMinutes (mkDayEntry "2024-01-03"
         [mkTimePair (Some "22:00") (Some "06:00");
          mkTimePair (Some "07:00") None] None) = Some t
       ∧ 0 <= t <= 1439 * 2.
Proof.
  apply (sumDayMinutes_bounds (mkDayEntry "2024-01-03"
         [mkTimePair (Some "22:00") (Some "06:00");
          mkTimePair (Some "07:00") None] None)).
  reflexivity.
Defined.

End DayTotals.

(** ** Aggregation: further properties of [overtimeFor] *)

Section Balances.

Lemma overtimeFor_of_totals dailyTarget l ds :
  mapM sumDayMinutes l = Some ds →
  overtimeFor dailyTarget l
  = Some (mkOvertime (Zsum ds)
                     (workedDayCount ds * dailyTarget)
                     (Zsum ds - workedDayCount ds * dailyTarget)).
Proof.
  intros H. unfold overtimeFor.
  rewrite (reduce_totals l ds 0 H).
  destruct (filterM_worked l ds H) as (w & -> & Hw).
  cbn [mbind option_bind]. rewrite Hw, Z.add_0_l. reflexivity.
Qed.

Lemma overtimeFor_totals_defined dailyTarget l :
  is_Some (overtimeFor dailyTarget l) → is_Some (mapM sumDayMinutes l).
Proof.
  unfold overtimeFor. intros [ot H].
  destruct (reduce _ l 0) as [t|] eqn:Hr; [|discriminate]. clear H.
  revert Hr. generalize 0. clear ot.
  induction l as [|e l IH]; intros acc Hr; [eexists; reflexivity|].
  cbn [reduce] in Hr. cbn.
  destruct (sumDayMinutes e) as [m|]; [|discriminate]. cbn in Hr |- *.
  destruct (IH _ Hr) as [ds ->]. eexists; reflexivity.
Qed.

Lemma Zsum_app l k : Zsum (l ++ k) = Zsum l + Zsum k.
Proof.
  unfold Zsum. induction l as [|x l IH]; cbn [app foldr]; [reflexivity | lia].
Qed.

Lemma workedDayCount_app l k :
  workedDayCount (l ++ k) = workedDayCount l + workedDayCount k.
Proof.
  unfold workedDayCount. rewrite filter_app, length_app. lia.
Qed.

Lemma rowDelta_sum dailyTarget ds :
  Zsum (rowDelta dailyTarget <$> ds)
  = Zsum ds - workedDayCount ds * dailyTarget.
Proof.
  induction ds as [|m ds IH]; [reflexivity|].
  change (m :: ds) with ([m] ++ ds)%list.
  rewrite fmap_app, !Zsum_app, workedDayCount_app, IH.
  unfold workedDayCount, Zsum, rowDelta. cbn [fmap list_fmap foldr].
  rewrite filter_cons, filter_nil.
  destruct (Z.ltb_spec 0 m); destruct (decide (0 < m)); try lia;
    cbn [length]; lia.
Qed.

Lemma pairCount_app l k : pairCount (l ++ k) = pairCount l + pairCount k.
Proof. unfold pairCount. rewrite fmap_app. apply Zsum_app. Qed.

Lemma pairCount_nonneg l : 0 <= pairCount l.
Proof.
  unfold pairCount, Zsum.
  induction l as [|e l IH]; cbn [fmap list_fmap foldr]; lia.
Qed.

(** The totals of days with well-formed time fields: each lies between 0 and
    1439 times the number of its pairs. *)
Lemma mapM_sumDayMinutes_bounds l :
  forallb wellTimedEntry l = true →
  ∃ ds, mapM sumDayMinutes l = Some ds
        ∧ length ds = length l
        ∧ Forall (λ m, 0 <= m) ds
        ∧ Zsum ds <= 1439 * pairCount l.
Proof.
  assert (G : ∀ ps acc,
    forallb (λ p, wellTimed (start p) && wellTimed (end_ p)) ps = true →
    ∃ t, reduce addPairMinutes ps acc = Some t
         ∧ acc <= t <= acc + 1439 * Z.of_nat (length ps)).
  { induction ps as [|p ps IH]; intros acc H.
    - exists acc. split; [reflexivity | cbn; lia].
    - cbn [forallb] in H.
      apply andb_true_iff in H as [[Hs He]%andb_true_iff Hps].
      destruct (periodMinutes_wellTimed_range p Hs He) as (d & Hd & Rd).
      cbn [reduce]. rewrite addPairMinutes_shift, Hd.
      cbn [fmap option_fmap option_map mbind option_bind].
      destruct (IH (acc + d) Hps) as (t & -> & Rt).
      exists t. split; [reflexivity|]. cbn [length]. lia. }
  induction l as [|e l IH]; intros H.
  - exists []. repeat split; [constructor | reflexivity].
  - cbn [forallb] in H. apply andb_true_iff in H as [He Hl].
    destruct (G (pairs e) 0 He) as (m & Hm & Rm).
    change (reduce addPairMinutes (pairs e) 0) with (sumDayMinutes e) in Hm.
    destruct (IH Hl) as (ds & Hds & Hlen & Hpos & Hsum).
    exists (m :: ds). split; [|split; [|split]].
    + cbn. rewrite Hm. cbn. rewrite Hds. reflexivity.
    + cbn [length]. lia.
    + constructor; [lia | exact Hpos].
    + unfold pairCount, Zsum in *. cbn [fmap list_fmap foldr]. lia.
Qed.

Lemma Zsum_nonneg ds : Forall (λ m, 0 <= m) ds → 0 <= Zsum ds.
Proof.
  unfold Zsum. induction 1 as [|m ds Hm _ IH]; cbn [foldr]; lia.
Qed.

Lemma workedDayCount_range ds :
  0 <= workedDayCount ds <= Z.of_nat (length ds).
Proof.
  unfold workedDayCount.
  pose proof (length_filter (λ d, 0 < d) ds). lia.
Qed.

(** Within [exactBalance] the balance is produced and its three numbers are
    safe integers. *)
Lemma overtimeFor_exact dailyTarget l :
  exactBalance dailyTarget l = true →
  ∃ ds, mapM sumDayMinutes l = Some ds
        ∧ overtimeFor dailyTarget l
          = Some (mkOvertime (Zsum ds)
                             (workedDayCount ds * dailyTarget)
                             (Zsum ds - workedDayCount ds * dailyTarget))
        ∧ Forall (λ m, 0 <= m) ds
        ∧ safeInteger (Zsum ds) = true
        ∧ safeInteger (workedDayCount ds * dailyTarget) = true
        ∧ safeInteger (Zsum ds - workedDayCount ds * dailyTarget) = true.
Proof.
  unfold exactBalance, safeInteger.
  intros [Hw Hb%Z.ltb_lt]%andb_true_iff.
  destruct (mapM_sumDayMinutes_bounds l Hw) as (ds & Hds & Hlen & Hpos & Hsum).
  exists ds. split; [exact Hds|].
  split; [apply overtimeFor_of_totals, Hds|].
  split; [exact Hpos|].
  pose proof (Zsum_nonneg ds Hpos) as H0.
  pose proof (pairCount_nonneg l) as Hp.
  pose proof (workedDayCount_range ds) as Hc. rewrite Hlen in Hc.
  pose proof (Z.abs_nonneg dailyTarget) as Ha.
  assert (Ht : Z.abs (workedDayCount ds * dailyTarget)
               <= Z.abs dailyTarget * Z.of_nat (length l)).
  { rewrite Z.abs_mul, (Z.abs_eq (workedDayCount ds)) by lia.
    rewrite (Z.mul_comm (Z.abs dailyTarget)).
    apply Z.mul_le_mono_nonneg_r; lia. }
  rewrite Z.abs_eq in Hb by lia.
  rewrite !Z.ltb_lt. repeat split; lia.
Qed.

(** X6.  For days with time fields as the time inputs deliver them and a
    whole-numbered daily target, in the range where the numbers of the code
    are exact, the balance in the footer of the week table is produced and is
    the sum of the balances shown in its rows: each day counts its total, less
    the daily target when the total is positive.  The total, the target and
    the balance are safe integers there. *)
Theorem overtimeFor_delta_rows dailyTarget l :
  exactBalance dailyTarget l = true →
  ∃ ot ds, overtimeFor dailyTarget l = Some ot
           ∧ mapM sumDayMinutes l = Some ds
           ∧ delta ot = Zsum (rowDelta dailyTarget <$> ds)
           ∧ safeInteger (total ot) = true
           ∧ safeInteger (target ot) = true
           ∧ safeInteger (delta ot) = true.
Proof.
  intros H.
  destruct (overtimeFor_exact dailyTarget l H)
    as (ds & Hds & Hot & _ & St & Sg & Sd).
  eexists _, ds. split; [exact Hot|]. split; [exact Hds|].
  cbn [total target delta]. split; [symmetry; apply rowDelta_sum|].
  repeat split; assumption.
Qed.

Lemma overtimeFor_delta_rows_witness :
  ∃ ot ds,
    overtimeFor 480
      [mkDayEntry "2024-01-01" [mkTimePair (Some "08:00") (Some "17:00")] None;
       mkDayEntry "2024-01-02" [] None] = Some ot
    ∧ mapM sumDayMinutes
        [mkDayEntry "2024-01-01" [mkTimePair (Some "08:00") (Some "17:00")] None;
         mkDayEntry "2024-01-02" [] None] = Some ds
    ∧ delta ot = Zsum (rowDelta 480 <$> ds)
    ∧ safeInteger (total ot) = true
    ∧ safeInteger (target ot) = true
    ∧ safeInteger (delta ot) = true.
Proof.
  apply (overtimeFor_delta_rows 480
    [mkDayEntry "2024-01-01" [mkTimePair (Some "08:00") (Some "17:00")] None;
     mkDayEntry "2024-01-02" [] None]).
  reflexivity.
Defined.

Lemma overtimeFor_sum dailyTarget l1 l2 o1 o2 :
  overtimeFor dailyTarget l1 = Some o1 →
  overtimeFor dailyTarget l2 = Some o2 →
  overtimeFor dailyTarget (l1 ++ l2)
  = Some (mkOvertime (total o1 + total o2) (target o1 + target o2)
                     (delta o1 + delta o2)).
Proof.
  intros H1 H2.
  destruct (overtimeFor_totals_defined dailyTarget l1) as [d1 Hd1];
    [eexists; exact H1|].
  destruct (overtimeFor_totals_defined dailyTarget l2) as [d2 Hd2];
    [eexists; exact H2|].
  rewrite (overtimeFor_of_totals _ _ _ Hd1) in H1. injection H1 as <-.
  rewrite (overtimeFor_of_totals _ _ _ Hd2) in H2. injection H2 as <-.
  assert (Hd : mapM sumDayMinutes (l1 ++ l2) = Some (d1 ++ d2)%list).
  { apply mapM_Some, Forall2_app; by apply mapM_Some. }
  rewrite (overtimeFor_of_totals _ _ _ Hd), Zsum_app, workedDayCount_app.
  cbn [total target delta]. f_equal. f_equal; lia.
Qed.

Lemma exactBalance_app dailyTarget l1 l2 :
  exactBalance dailyTarget (l1 ++ l2) = true →
  exactBalance dailyTarget l1 = true ∧ exactBalance dailyTarget l2 = true.
Proof.
  unfold exactBalance, safeInteger.
  rewrite forallb_app, pairCount_app, length_app.
  intros [[H1 H2]%andb_true_iff Hb%Z.ltb_lt]%andb_true_iff.
  rewrite H1, H2. cbn [andb]. rewrite !Z.ltb_lt.
  pose proof (pairCount_nonneg l1). pose proof (pairCount_nonneg l2).
  pose proof (Z.abs_nonneg dailyTarget).
  rewrite Z.abs_eq in Hb by nia. rewrite !Z.abs_eq by nia.
  split; nia.
Qed.

(** X7.  Balances add up, for days with time fields as the time inputs
    deliver them and a whole-numbered daily target, in the range where the
    numbers of the code are exact: the balance of two lists of days put
    together is produced, as are the balances of the two lists, and it has
    the sums of their totals, of their targets and of their deltas, all of
    them safe integers. *)
Theorem overtimeFor_app dailyTarget l1 l2 :
  exactBalance dailyTarget (l1 ++ l2) = true →
  ∃ o1 o2,
    overtimeFor dailyTarget l1 = Some o1
    ∧ overtimeFor dailyTarget l2 = Some o2
    ∧ overtimeFor dailyTarget (l1 ++ l2)
      = Some (mkOvertime (total o1 + total o2) (target o1 + target o2)
                         (delta o1 + delta o2))
    ∧ safeInteger (total o1 + total o2) = true
    ∧ safeInteger (target o1 + target o2) = true
    ∧ safeInteger (delta o1 + delta o2) = true.
Proof.
  intros H.
  destruct (exactBalance_app _ _ _ H) as [H1 H2].
  destruct (overtimeFor_exact _ _ H1) as (d1 & _ & Ho1 & _).
  destruct (overtimeFor_exact _ _ H2) as (d2 & _ & Ho2 & _).
  destruct (overtimeFor_exact _ _ H) as (d & _ & Ho & _ & St & Sg & Sd).
  eexists _, _. split; [exact Ho1|]. split; [exact Ho2|].
  pose proof (overtimeFor_sum _ _ _ _ _ Ho1 Ho2) as Hs.
  split; [exact Hs|].
  rewrite Ho in Hs. cbn [total target delta] in Hs |- *.
  injection Hs as Et Eg Ed.
  rewrite <- Et, <- Eg, <- Ed. repeat split; assumption.
Qed.

Lemma overtimeFor_app_witness :
  ∃ o1 o2,
    overtimeFor 480
      [mkDayEntry "2024-01-01" [mkTimePair (Some "08:00") (Some "17:00")] None]
    = Some o1
    ∧ overtimeFor 480
        [mkDayEntry "2024-01-02" [mkTimePair (Some "09:00") (Some "15:00")] None]
      = Some o2
    ∧ overtimeFor 480
        ([mkDayEntry "2024-01-01"
            [mkTimePair (Some "08:00") (Some "17:00")] None]
         ++ [mkDayEntry "2024-01-02"
               [mkTimePair (Some "09:00") (Some "15:00")] None])
      = Some (mkOvertime (total o1 + total o2) (target o1 + target o2)
                         (delta o1 + delta o2))
    ∧ safeInteger (total o1 + total o2) = true
    ∧ safeInteger (target o1 + target o2) = true
    ∧ safeInteger (delta o1 + delta o2) = true.
Proof.
  apply (overtimeFor_app 480
    [mkDayEntry "2024-01-01" [mkTimePair (Some "08:00") (Some "17:00")] None]
    [mkDayEntry "2024-01-02" [mkTimePair (Some "09:00") (Some "15:00")] None]).
  reflexivity.
Defined.

(** X8.  Days without a positive total leave the balance as it is: they add
    nothing to the total and nothing to the target. *)
Theorem overtimeFor_idle_days dailyTarget l e :
  sumDayMinutes e = Some 0 →
  overtimeFor dailyTarget (e :: l) = overtimeFor dailyTarget l
  ∧ overtimeFor dailyTarget (l ++ [e]) = overtimeFor dailyTarget l.
Proof.
  intros He.
  assert (H0 : ∀ t, overtimeFor t [e] = Some (mkOvertime 0 0 0)).
  { intros t. rewrite (overtimeFor_of_totals t [e] [0]); [reflexivity|].
    cbn. rewrite He. reflexivity. }
  destruct (overtimeFor dailyTarget l) as [o|] eqn:Hl.
  - split.
    + change (e :: l) with ([e] ++ l)%list.
      rewrite (overtimeFor_sum _ _ _ _ _ (H0 dailyTarget) Hl).
      destruct o; reflexivity.
    + rewrite (overtimeFor_sum _ _ _ _ _ Hl (H0 dailyTarget)).
      destruct o; cbn. f_equal. f_equal; lia.
  - assert (Hn : mapM sumDayMinutes l = None).
    { destruct (mapM sumDayMinutes l) as [ds|] eqn:Hds; [|reflexivity].
      rewrite (overtimeFor_of_totals _ _ _ Hds) in Hl. discriminate. }
    assert (G : ∀ l', mapM sumDayMinutes l' = None →
                      overtimeFor dailyTarget l' = None).
    { intros l' Hl'.
      destruct (overtimeFor dailyTarget l') as [o|] eqn:Ho; [|reflexivity].
      destruct (overtimeFor_totals_defined dailyTarget l') as [ds Hds];
        [eexists; exact Ho | congruence]. }
    split; apply G.
    + cbn. rewrite He. cbn. rewrite Hn. reflexivity.
    + destruct (mapM sumDayMinutes (l ++ [e])) as [ds|] eqn:Hds;
        [|reflexivity].
      apply mapM_Some, Forall2_app_inv_l in Hds
        as (k1 & k2 & Hk1%mapM_Some & _ & _). congruence.
Qed.

Lemma overtimeFor_idle_days_witness :
  overtimeFor 480
    (mkDayEntry "2024-01-06" [mkTimePair (Some "09:00") None] None
     :: [mkDayEntry "2024-01-05" [mkTimePair (Some "08:00") (Some "17:00")] None])
  = overtimeFor 480
      [mkDayEntry "2024-01-05" [mkTimePair (Some "08:00") (Some "17:00")] None].
Proof.
  apply (proj1 (overtimeFor_idle_days 480 _
    (mkDayEntry "2024-01-06" [mkTimePair (Some "09:00") None] None) eq_refl)).
Defined.

End Balances.

(** ** State updaters: how they compose *)

Section UpdaterCompositions.

Variable selectedDate : string.

Local Abbreviation find := (findSelected selectedDate).
Local Abbreviation today := (todayEntry selectedDate).

Lemma find_lookup (prev : list DayEntry) idx e :
  find prev = Some (idx, e) → prev !! idx = Some e ∧ date e = selectedDate.
Proof. intros (H1 & H2 & _)%list_find_Some. split; assumption. Qed.

Lemma find_insert (prev : list DayEntry) idx e e' :
  find prev = Some (idx, e) → date e' = selectedDate →
  find (<[idx := e']> prev) = Some (idx, e').
Proof.
  intros (Hl & He & Hlt)%list_find_Some He'. apply list_find_Some.
  assert (idx < length prev)%nat by (eapply lookup_lt_Some; eassumption).
  split; [by apply list_lookup_insert_eq|]. split; [assumption|].
  intros j y Hj Hji. rewrite list_lookup_insert_ne in Hj by lia.
  eapply Hlt; eassumption.
Qed.

Lemma find_snoc (prev : list DayEntry) e :
  find prev = None → date e = selectedDate →
  find (prev ++ [e]) = Some (length prev, e).
Proof.
  unfold findSelected. intros Hn He. rewrite list_find_app_r by assumption.
  cbn.
  destruct (decide (date e = selectedDate)); [|contradiction]. reflexivity.
Qed.

Lemma withPairs_same e : withPairs e (pairs e) = e.
Proof. destruct e; reflexivity. Qed.

Lemma today_found (prev : list DayEntry) idx e :
  find prev = Some (idx, e) → today prev = e.
Proof. unfold todayEntry. intros ->. reflexivity. Qed.

Lemma today_missing (prev : list DayEntry) :
  find prev = None → today prev = mkDayEntry selectedDate [] None.
Proof. unfold todayEntry. intros ->. reflexivity. Qed.

Lemma today_appendToday p (prev : list DayEntry) :
  today (appendToday selectedDate p prev)
  = withPairs (today prev) (pairs (today prev) ++ [p]).
Proof.
  unfold appendToday. destruct (find prev) as [[idx e]|] eqn:Hf.
  - rewrite (today_found _ _ _ Hf).
    apply (today_found _ idx), find_insert with e; [assumption|].
    cbn. by apply find_lookup in Hf as [_ ?].
  - rewrite (today_missing _ Hf).
    apply (today_found _ (length prev)), find_snoc; [assumption | reflexivity].
Qed.

Lemma addEmptyPair_appendToday (prev : list DayEntry) :
  addEmptyPair selectedDate prev
  = appendToday selectedDate (mkTimePair (Some "08:00") (Some "16:00")) prev.
Proof. reflexivity. Qed.

Lemma addStartNow_appendToday now (prev : list DayEntry) :
  (∀ p, last (pairs (today prev)) = Some p → JS.truthy (end_ p) = true) →
  addStartNow selectedDate now prev
  = appendToday selectedDate (mkTimePair (Some now) None) prev.
Proof.
  intros Hg. unfold addStartNow, appendToday, todayEntry in *.
  destruct (find prev) as [[idx e]|]; [|reflexivity].
  destruct (last (pairs e)) as [p|]; [|reflexivity].
  rewrite (Hg p eq_refl). reflexivity.
Qed.

(** X10.  "Paar hinzufügen" raises the total of the selected day by 480 minutes,
    whether or not the day was stored before. *)
Theorem addEmptyPair_total (prev : list DayEntry) :
  sumDayMinutes (today (addEmptyPair selectedDate prev))
  = (λ t, t + 480) <$> sumDayMinutes (today prev).
Proof.
  rewrite addEmptyPair_appendToday, today_appendToday, sumDayMinutes_snoc.
  destruct (sumDayMinutes (today prev)); reflexivity.
Qed.

(** X11.  Clocking in and then out, on a day whose last pair (if any) is closed,
    adds exactly one pair from the first time to the second, and the day
    total grows by what that pair counts. *)
Theorem addEndNow_addStartNow now1 now2 (prev : list DayEntry) :
  (∀ p, last (pairs (today prev)) = Some p → JS.truthy (end_ p) = true) →
  let closed := mkTimePair (Some now1) (Some now2) in
  addEndNow selectedDate now2 (addStartNow selectedDate now1 prev)
  = appendToday selectedDate closed prev
  ∧ sumDayMinutes
      (today (addEndNow selectedDate now2 (addStartNow selectedDate now1 prev)))
    = t ← sumDayMinutes (today prev); d ← periodMinutes closed; Some (t + d).
Proof.
  intros Hg closed.
  assert (E : addEndNow selectedDate now2 (addStartNow selectedDate now1 prev)
              = appendToday selectedDate closed prev).
  { rewrite (addStartNow_appendToday _ _ Hg).
    unfold addEndNow, appendToday.
    destruct (find prev) as [[idx e]|] eqn:Hf.
    - destruct (find_lookup _ _ _ Hf) as [Hl He].
      rewrite (find_insert _ _ _
        (withPairs e (pairs e ++ [mkTimePair (Some now1) None])) Hf He).
      cbn [pairs withPairs]. rewrite last_snoc. cbn [end_ JS.truthy].
      rewrite removelast_last, list_insert_insert_eq. reflexivity.
    - rewrite (find_snoc _
        (mkDayEntry selectedDate [mkTimePair (Some now1) None] None)
        Hf eq_refl).
      cbn [pairs last end_ JS.truthy removelast app withPairs date note start].
      rewrite insert_app_r_alt by lia. rewrite Nat.sub_diag. reflexivity. }
  split; [exact E|].
  rewrite E, today_appendToday. apply sumDayMinutes_snoc.
Qed.

(** X12.  After "Gehen jetzt" there is nothing left for it to do: a second
    clock-out changes nothing. *)
Theorem addEndNow_idempotent now1 now2 (prev : list DayEntry) :
  JS.truthy (Some now1) = true →
  addEndNow selectedDate now2 (addEndNow selectedDate now1 prev)
  = addEndNow selectedDate now1 prev.
Proof.
  intros Hn. unfold addEndNow at 2 3.
  destruct (find prev) as [[idx e]|] eqn:Hf;
    [|unfold addEndNow; rewrite Hf; reflexivity].
  destruct (last (pairs e)) as [l|] eqn:Hl;
    [|unfold addEndNow; rewrite Hf, Hl; reflexivity].
  destruct (JS.truthy (end_ l)) eqn:Ht;
    [unfold addEndNow; rewrite Hf, Hl, Ht; reflexivity|].
  destruct (find_lookup _ _ _ Hf) as [_ He].
  unfold addEndNow.
  rewrite (find_insert _ _ _
    (withPairs e (removelast (pairs e) ++ [mkTimePair (start l) (Some now1)]))
    Hf He).
  cbn [pairs withPairs]. rewrite last_snoc. cbn [end_]. rewrite Hn.
  reflexivity.
Qed.

End UpdaterCompositions.

Lemma addEndNow_addStartNow_witness :
  let day := "2024-01-03" in
  let prev := [mkDayEntry day [mkTimePair (Some "08:00") (Some "12:00")] None] in
  addEndNow day "17:30" (addStartNow day "13:00" prev)
  = [mkDayEntry day [mkTimePair (Some "08:00") (Some "12:00");
                     mkTimePair (Some "13:00") (Some "17:30")] None]
  ∧ sumDayMinutes
      (todayEntry day (addEndNow day "17:30" (addStartNow day "13:00" prev)))
    = Some 510.
Proof.
  cbv zeta.
  apply (addEndNow_addStartNow "2024-01-03" "13:00" "17:30"
    [mkDayEntry "2024-01-03" [mkTimePair (Some "08:00") (Some "12:00")] None]).
  intros p [= <-]. reflexivity.
Defined.

Lemma addEndNow_idempotent_witness :
  let day := "2024-01-03" in
  let prev := [mkDayEntry day [mkTimePair (Some "08:00") None] None] in
  addEndNow day "18:00" (addEndNow day "17:30" prev)
  = addEndNow day "17:30" prev.
Proof.
  cbv zeta. apply (addEndNow_idempotent "2024-01-03" "17:30" "18:00").
  reflexivity.
Defined.

Section UpdaterFrames.

Variable selectedDate : string.

Local Abbreviation find := (findSelected selectedDate).
Local Abbreviation today := (todayEntry selectedDate).

(** X13.  "Gehen jetzt" keeps the number of records and, in every record, the
    date, the note, the number of pairs, all pairs but the last and the
    start of the last; records of other dates stay as they are. *)
Theorem addEndNow_frame now (prev : list DayEntry) :
  length (addEndNow selectedDate now prev) = length prev
  ∧ ∀ i e, prev !! i = Some e →
      ∃ e', addEndNow selectedDate now prev !! i = Some e'
            ∧ date e' = date e ∧ note e' = note e
            ∧ length (pairs e') = length (pairs e)
            ∧ removelast (pairs e') = removelast (pairs e)
            ∧ start <$> last (pairs e') = start <$> last (pairs e)
            ∧ (date e ≠ selectedDate → e' = e).
Proof.
  unfold addEndNow.
  destruct (find prev) as [[idx x]|] eqn:Hf;
    [|split; [reflexivity | intros i e Hi; exists e; tauto]].
  destruct (last (pairs x)) as [l|] eqn:Hl;
    [|split; [reflexivity | intros i e Hi; exists e; tauto]].
  destruct (JS.truthy (end_ l));
    [split; [reflexivity | intros i e Hi; exists e; tauto]|].
  split; [apply length_insert|].
  destruct (find_lookup _ _ _ _ Hf) as [Hx Hd].
  intros i e Hi. destruct (decide (i = idx)) as [->|Hne].
  - assert (e = x) as -> by congruence.
    eexists. split; [apply list_lookup_insert_eq; by eapply lookup_lt_Some|].
    apply last_Some in Hl as [ps Hps]. cbn [date note pairs withPairs].
    rewrite Hps, !removelast_last, !last_snoc, !length_app.
    split; [reflexivity|]. split; [reflexivity|]. split; [reflexivity|].
    split; [reflexivity|]. split; [reflexivity|]. intros Hd'. contradiction.
  - exists e. rewrite list_lookup_insert_ne by congruence. tauto.
Qed.

Lemma filterIndexed_all {A} (l : list A) : ∀ i k,
  (i < k)%nat → filterIndexed (λ _ j, negb (j =? i)%nat) k l = l.
Proof.
  induction l as [|x l IH]; intros i k H; [reflexivity|]. cbn.
  destruct (Nat.eqb_spec k i); [lia|]. cbn. f_equal. apply IH. lia.
Qed.

Lemma filterIndexed_delete {A} (l : list A) : ∀ i k n,
  n = (i + k)%nat → filterIndexed (λ _ j, negb (j =? n)%nat) k l = delete i l.
Proof.
  induction l as [|x l IH]; intros i k n ->; [reflexivity|]. cbn.
  destruct i as [|i]; cbn.
  - rewrite Nat.eqb_refl. cbn. apply filterIndexed_all. lia.
  - destruct (Nat.eqb_spec k (S (i + k))); [lia|]. cbn. f_equal.
    apply IH. lia.
Qed.

Lemma delete_beyond {A} (l : list A) i : (length l ≤ i)%nat → delete i l = l.
Proof.
  intros H. rewrite delete_take_drop, take_ge, drop_ge by lia.
  apply app_nil_r.
Qed.

(** X16.  [deletePair i] removes pair [i] of the selected day and nothing else;
    an index beyond the pairs changes nothing; and it takes back what
    "Paar hinzufügen" added to a stored day. *)
Theorem deletePair_spec (prev : list DayEntry) idx e :
  find prev = Some (idx, e) →
  (∀ i, deletePair selectedDate i prev
        = <[idx := withPairs e (delete i (pairs e))]> prev)
  ∧ (∀ i, (length (pairs e) ≤ i)%nat → deletePair selectedDate i prev = prev)
  ∧ deletePair selectedDate (length (pairs e)) (addEmptyPair selectedDate prev)
    = prev.
Proof.
  intros Hf. destruct (find_lookup _ _ _ _ Hf) as [Hx Hd].
  assert (E : ∀ (l : list DayEntry) k x i, find l = Some (k, x) →
    deletePair selectedDate i l = <[k := withPairs x (delete i (pairs x))]> l).
  { intros l k x i H. unfold deletePair. rewrite H.
    rewrite (filterIndexed_delete _ i 0 i) by lia. reflexivity. }
  split; [intros i; by apply E|]. split.
  - intros i Hi. rewrite (E _ _ _ _ Hf), delete_beyond by assumption.
    rewrite withPairs_same. by apply list_insert_id.
  - unfold addEmptyPair. rewrite Hf.
    rewrite (E _ idx
      (withPairs e (pairs e ++ [mkTimePair (Some "08:00") (Some "16:00")])));
      [|by apply find_insert with e].
    cbn [pairs withPairs date note].
    rewrite delete_middle, app_nil_r, list_insert_insert_eq.
    apply list_insert_id. rewrite Hx. destruct e; reflexivity.
Qed.

(** X15.  [setPair i key val] writes [val] into the start or the end of pair [i]
    of the selected day and leaves its other pairs, its date and note, and
    all other records alone; an index beyond the pairs changes nothing. *)
Theorem setPair_spec i key val (prev : list DayEntry) idx e :
  find prev = Some (idx, e) →
  ∃ e', setPair selectedDate i key val prev = <[idx := e']> prev
        ∧ today (setPair selectedDate i key val prev) = e'
        ∧ date e' = date e ∧ note e' = note e
        ∧ length (pairs e') = length (pairs e)
        ∧ pairs e' !! i = withKey key val <$> pairs e !! i
        ∧ (∀ j, j ≠ i → pairs e' !! j = pairs e !! j)
        ∧ ((length (pairs e) ≤ i)%nat →
           setPair selectedDate i key val prev = prev).
Proof.
  intros Hf. destruct (find_lookup _ _ _ _ Hf) as [Hx Hd].
  unfold setPair. rewrite Hf.
  set (ps := imap _ (pairs e)). exists (withPairs e ps).
  assert (Hi : ps !! i = withKey key val <$> pairs e !! i).
  { unfold ps. rewrite list_lookup_imap, Nat.eqb_refl. reflexivity. }
  assert (Hj : ∀ j, j ≠ i → ps !! j = pairs e !! j).
  { intros j Hne. unfold ps. rewrite list_lookup_imap.
    destruct (Nat.eqb_spec j i); [contradiction|].
    destruct (pairs e !! j); reflexivity. }
  split; [reflexivity|].
  split; [apply (today_found _ _ idx); by apply find_insert with e|].
  cbn [date note pairs withPairs].
  split; [reflexivity|]. split; [reflexivity|].
  split; [apply length_imap|]. split; [exact Hi|]. split; [exact Hj|].
  intros Hge. assert (ps = pairs e) as ->.
  { apply list_eq. intros j. destruct (decide (j = i)) as [->|Hne].
    - rewrite Hi, lookup_ge_None_2 by assumption. reflexivity.
    - by apply Hj. }
  rewrite withPairs_same. by apply list_insert_id.
Qed.

(** X17.  After "Tag leeren" the selected day has no pairs: its total is 0 and no
    pair is open; clearing again changes nothing. *)
Theorem clearDay_effect (prev : list DayEntry) :
  pairs (today (clearDay selectedDate prev)) = []
  ∧ sumDayMinutes (today (clearDay selectedDate prev)) = Some 0
  ∧ hasOpenPair selectedDate (clearDay selectedDate prev) = false
  ∧ clearDay selectedDate (clearDay selectedDate prev)
    = clearDay selectedDate prev.
Proof.
  assert (E : pairs (today (clearDay selectedDate prev)) = []).
  { unfold todayEntry.
    destruct (find (clearDay selectedDate prev)) as [[idx e']|] eqn:Hf;
      [|reflexivity].
    destruct (find_lookup _ _ _ _ Hf) as [Hl Hd]. unfold clearDay in Hl.
    rewrite list_lookup_fmap in Hl.
    destruct (prev !! idx) as [e|]; [|discriminate]. cbn in Hl.
    injection Hl as <-.
    destruct (decide (date e = selectedDate)); [reflexivity | contradiction]. }
  split; [exact E|]. split; [|split].
  - unfold sumDayMinutes. rewrite E. reflexivity.
  - unfold hasOpenPair. rewrite E. reflexivity.
  - unfold clearDay. rewrite <- list_fmap_compose. apply list_fmap_ext.
    intros _ e _. cbn.
    destruct (decide (date e = selectedDate)) as [He|He]; cbn.
    + rewrite decide_True by exact He. reflexivity.
    + rewrite decide_False by exact He. reflexivity.
Qed.

End UpdaterFrames.

Lemma deletePair_spec_witness :
  let day := "2024-01-03" in
  let prev := [mkDayEntry day [mkTimePair (Some "08:00") (Some "12:00")] None] in
  deletePair day 1 (addEmptyPair day prev) = prev
  ∧ deletePair day 7 prev = prev.
Proof.
  cbv zeta.
  pose proof (deletePair_spec "2024-01-03"
    [mkDayEntry "2024-01-03" [mkTimePair (Some "08:00") (Some "12:00")] None]
    0%nat _ eq_refl) as (_ & H2 & H3).
  split; [exact H3 | apply H2; cbn; lia].
Defined.

Lemma setPair_spec_witness :
  let day := "2024-01-03" in
  let prev := [mkDayEntry day [mkTimePair (Some "08:00") None] None] in
  ∃ e', setPair day 0 KeyEnd "16:15" prev = <[0%nat := e']> prev
        ∧ pairs e' !! 0%nat = Some (mkTimePair (Some "08:00") (Some "16:15")).
Proof.
  cbv zeta.
  destruct (setPair_spec "2024-01-03" 0 KeyEnd "16:15"
    [mkDayEntry "2024-01-03" [mkTimePair (Some "08:00") None] None]
    0%nat _ eq_refl) as (e' & H1 & _ & _ & _ & _ & H6 & _).
  exists e'. split; [exact H1 | exact H6].
Defined.

(** ** The effect that stores the selected day *)

Section EnsureDay.

Variable selectedDate : string.

(** Whatever the collation, sorting rearranges the records and nothing
    more. *)
Variable sortByDate : list DayEntry → list DayEntry.
Hypothesis sortByDate_perm : ∀ l, sortByDate l ≡ₚ l.

Lemma some_selected (prev : list DayEntry) :
  existsb (λ e, String.eqb (date e) selectedDate) prev = true
  ↔ is_Some (findSelected selectedDate prev).
Proof.
  rewrite existsb_exists. split.
  - intros (e & Hin%list_elem_of_In & He%String.eqb_eq).
    apply list_elem_of_lookup in Hin as [i Hi].
    destruct (list_find_elem_of (λ e, date e = selectedDate) prev e)
      as [[j y] Hj]; [eapply list_elem_of_lookup_2; eassumption | exact He|].
    eexists; exact Hj.
  - intros [[i e] (Hi & He & _)%list_find_Some]. exists e.
    split; [eapply list_elem_of_In, list_elem_of_lookup_2; eassumption|].
    by apply String.eqb_eq.
Qed.

(** X9.  After the effect the selected day is stored; running it again changes
    nothing; every record stored before is still there, unchanged, and at
    most an empty record of the selected date has come in; and dates that
    were unique stay unique. *)
Theorem ensureDay_spec (prev : list DayEntry) :
  let next := ensureDay selectedDate sortByDate prev in
  is_Some (findSelected selectedDate next)
  ∧ ensureDay selectedDate sortByDate next = next
  ∧ (is_Some (findSelected selectedDate prev) → next = prev)
  ∧ (∀ e, e ∈ next ↔ e ∈ prev
                     ∨ (findSelected selectedDate prev = None
                        ∧ e = mkDayEntry selectedDate [] None))
  ∧ (NoDup (date <$> prev) → NoDup (date <$> next)).
Proof.
  cbv zeta. unfold ensureDay.
  destruct (existsb _ prev) eqn:Hex.
  - pose proof (proj1 (some_selected prev) Hex) as Hs.
    rewrite Hex. split; [exact Hs|]. split; [reflexivity|].
    split; [reflexivity|]. split; [|tauto].
    intros e. split; [tauto|]. intros [H|[Hn _]]; [exact H|].
    rewrite Hn in Hs. by destruct Hs.
  - assert (Hn : findSelected selectedDate prev = None).
    { destruct (findSelected selectedDate prev) as [p|] eqn:Hf; [|reflexivity].
      assert (Ht : existsb (λ e, String.eqb (date e) selectedDate) prev = true)
        by (apply some_selected; rewrite Hf; eexists; reflexivity).
      congruence. }
    set (new := mkDayEntry selectedDate [] None).
    assert (Hin : ∀ e, e ∈ sortByDate (prev ++ [new]) ↔ e ∈ prev ∨ e = new).
    { intros e. rewrite (sortByDate_perm _ ), elem_of_app, list_elem_of_singleton.
      reflexivity. }
    assert (Hs : existsb (λ e, String.eqb (date e) selectedDate)
                   (sortByDate (prev ++ [new])) = true).
    { apply existsb_exists. exists new. split.
      - apply list_elem_of_In, Hin. by right.
      - by apply String.eqb_eq. }
    split; [by apply some_selected|]. split; [by rewrite Hs|].
    split; [intros Hp; rewrite Hn in Hp; by destruct Hp|]. split.
    + intros e. rewrite Hin. split; [|tauto].
      intros [H|H]; [by left | by right].
    + intros Hnd. rewrite (sortByDate_perm _), fmap_app.
      apply NoDup_app. split; [exact Hnd|]. split; [|apply NoDup_singleton].
      cbn. intros d Hd ->%list_elem_of_singleton.
      apply list_elem_of_fmap in Hd as (e & He & Hin').
      apply list_find_None in Hn. rewrite Forall_forall in Hn.
      apply (Hn e Hin'). by symmetry.
Qed.

End EnsureDay.

Lemma insertByDate_perm e l : insertByDate e l ≡ₚ e :: l.
Proof.
  induction l as [|x l IH]; [reflexivity|]. cbn.
  destruct (String.ltb (date e) (date x)); [reflexivity|].
  rewrite IH. apply perm_swap.
Qed.

Lemma sortByDateBytes_perm l : sortByDateBytes l ≡ₚ l.
Proof.
  unfold sortByDateBytes.
  assert (G : ∀ acc, foldl (λ acc e, insertByDate e acc) acc l ≡ₚ acc ++ l).
  { induction l as [|x l IH]; intros acc; cbn [foldl].
    - by rewrite app_nil_r.
    - rewrite IH, insertByDate_perm. apply Permutation_middle. }
  apply (G []).
Qed.

Lemma ensureDay_spec_witness :
  let prev := [mkDayEntry "2024-01-05" [] None;
               mkDayEntry "2024-01-02"
                 [mkTimePair (Some "08:00") (Some "16:00")] None] in
  let next := ensureDay "2024-01-03" sortByDateBytes prev in
  is_Some (findSelected "2024-01-03" next)
  ∧ ensureDay "2024-01-03" sortByDateBytes next = next
  ∧ NoDup (date <$> next).
Proof.
  cbv zeta.
  pose proof (ensureDay_spec "2024-01-03" sortByDateBytes sortByDateBytes_perm
    [mkDayEntry "2024-01-05" [] None;
     mkDayEntry "2024-01-02" [mkTimePair (Some "08:00") (Some "16:00")] None])
    as (H1 & H2 & _ & _ & H5).
  split; [exact H1|]. split; [exact H2|]. apply H5. cbn.
  apply NoDup_cons. split; [|apply NoDup_singleton].
  intros [=]%list_elem_of_singleton.
Defined.

(** ** Persistence: import and the stored item *)

Section Persistence.

Import JsonImport.

Context {number : Type}.

Implicit Types (data : json number) (st : State number).

Lemma handleImportJSON_thrown (parsed : option (json number)) st :
  parsed = None ∨ parsed = Some JNull →
  handleImportJSON parsed st = (st, [alertText]).
Proof. intros [-> | ->]; reflexivity. Qed.

(** X18.  Importing the same file a second time changes nothing further: the
    state after two imports is the state after one, with the same alert or
    none. *)
Theorem handleImportJSON_idempotent (parsed : option (json number)) st :
  handleImportJSON parsed (handleImportJSON parsed st).1
  = handleImportJSON parsed st.
Proof.
  destruct parsed as [data|]; [|reflexivity].
  assert (Hd : data = JNull ∨ data ≠ JNull)
    by (destruct data; first [by left | by right]).
  destruct Hd as [->|Hd]; [reflexivity|].
  rewrite !(handleImportJSON_parsed _ _ Hd).
  cbn [fst entries dailyTargetMinutes].
  destruct (importedEntries data), (importedTarget data); reflexivity.
Qed.

(** X20.  At start-up nothing is ever shown, and a stored item that does not
    parse, or that holds neither an array of entries nor a numeric target,
    leaves the initial state as it is. *)
Theorem loadStored_keeps_state (stored : option (option (json number))) st :
  (stored = None ∨ stored = Some None ∨ stored = Some (Some JNull)
   ∨ ∃ data, stored = Some (Some data)
             ∧ importedEntries data = None ∧ importedTarget data = None) →
  Storage.loadStored stored st = st.
Proof.
  intros [-> | [-> | [-> | (data & -> & He & Ht)]]]; try reflexivity.
  assert (Hd : data = JNull ∨ data ≠ JNull)
    by (destruct data; first [by left | by right]).
  destruct Hd as [->|Hd]; [reflexivity|].
  unfold Storage.loadStored.
  pose proof (handleImportJSON_parsed data st Hd) as H.
  unfold handleImportJSON in H. destruct (tryBody (Some data) st) as [st' []];
    injection H as ->; rewrite He, Ht; destruct st; reflexivity.
Qed.

End Persistence.

Lemma loadStored_keeps_state_witness :
  Storage.loadStored
    (Some (Some (JsonImport.JObj [("entries", JsonImport.JStr "keine")])))
    (JsonImport.mkState [storedDay "2024-01-03"] 480)
  = JsonImport.mkState [storedDay "2024-01-03"] 480.
Proof.
  apply loadStored_keeps_state. right. right. right.
  eexists. split; [reflexivity|]. split; reflexivity.
Defined.

(** ** CSV export *)

Section Csv.

Import Storage.

Lemma unescapeBody_escapeQuotes c :
  unescapeBody (escapeQuotes c ++ String dquote EmptyString) = Some c.
Proof.
  induction c as [|a c IH]; [reflexivity|]. cbn [escapeQuotes].
  destruct (Ascii.eqb a dquote) eqn:Ha.
  - apply Ascii.eqb_eq in Ha as ->.
    change (unescapeBody (String dquote (String dquote (escapeQuotes c))
                          ++ String dquote EmptyString))
      with (if Ascii.eqb dquote dquote
            then if Ascii.eqb dquote dquote
                 then r ← unescapeBody (escapeQuotes c ++ String dquote EmptyString);
                      Some (String dquote r)
                 else None
            else r ← unescapeBody
                       (String dquote (escapeQuotes c ++ String dquote EmptyString));
                 Some (String dquote r)).
    rewrite Ascii.eqb_refl, IH. reflexivity.
  - change (unescapeBody (String a (escapeQuotes c) ++ String dquote EmptyString))
      with (if Ascii.eqb a dquote
            then match escapeQuotes c ++ String dquote EmptyString with
                 | EmptyString => Some EmptyString
                 | String b r' =>
                     if Ascii.eqb b dquote
                     then r ← unescapeBody r'; Some (String dquote r)
                     else None
                 end
            else r ← unescapeBody (escapeQuotes c ++ String dquote EmptyString);
                 Some (String a r)).
    rewrite Ha, IH. reflexivity.
Qed.

(** X21.  The quoting of the CSV cells loses nothing: a cell reads back as the
    text that was written, so different texts give different cells. *)
Theorem readCell_csvCell :
  (∀ c, readCell (csvCell c) = Some c)
  ∧ (∀ c c', csvCell c = csvCell c' → c = c').
Proof.
  assert (R : ∀ c, readCell (csvCell c) = Some c).
  { intros c. unfold readCell, csvCell.
    change (Ascii.eqb dquote dquote) with true. cbn iota.
    apply unescapeBody_escapeQuotes. }
  split; [exact R|].
  intros c c' H. apply (f_equal readCell) in H. rewrite !R in H. congruence.
Qed.

Lemma readCell_csvCell_witness :
  readCell (csvCell (String "a" (String dquote (String ";" EmptyString))))
  = Some (String "a" (String dquote (String ";" EmptyString)))
  ∧ "8;30" = "8;30".
Proof.
  split.
  - apply (proj1 readCell_csvCell).
  - apply (proj2 readCell_csvCell). reflexivity.
Defined.

Lemma mapM_Forall {A B} (f : A → option B) (Q : B → Prop) :
  (∀ x y, f x = Some y → Q y) →
  ∀ l k, mapM f l = Some k → Forall Q k.
Proof.
  intros HQ l k Hm. apply mapM_Some in Hm.
  induction Hm; constructor; eauto.
Qed.

Lemma entryRows_shape e rows :
  entryRows e = Some rows →
  length rows = rowCount e
  ∧ Forall (λ r, length r = 5%nat ∧ head r = Some (date e)) rows.
Proof.
  unfold entryRows, rowCount.
  destruct (mapM (pairRow (date e)) (pairs e)) as [rs|] eqn:Hm; [|discriminate].
  cbn [mbind option_bind]. intros [= <-].
  pose proof (length_mapM _ _ _ Hm) as Hl.
  assert (Hr : Forall (λ r, length r = 5%nat ∧ head r = Some (date e)) rs).
  { apply (mapM_Forall (pairRow (date e)) _) with (pairs e); [|exact Hm].
    intros p r Hp.
    unfold pairRow in Hp. destruct (csvPairMinutes p); [|discriminate].
    injection Hp as <-. split; reflexivity. }
  destruct (pairs e) as [|p ps]; cbn [length Nat.eqb app] in *.
  - destruct rs; [|discriminate]. split; [reflexivity|].
    constructor; [split; reflexivity | constructor].
  - split; [rewrite <- Hl; lia | exact Hr].
Qed.

(** X22.  The CSV has the header and then, for every stored day in order, one row
    per pair, or a single placeholder row when the day has no pair; every
    row has five cells. *)
Theorem csvRows_shape (entries : list DayEntry) rows :
  csvRows entries = Some rows →
  head rows = Some csvHeader
  ∧ length rows = S (list_sum (rowCount <$> entries))
  ∧ Forall (λ r, length r = 5%nat) rows.
Proof.
  unfold csvRows.
  destruct (mapM entryRows entries) as [rss|] eqn:Hm; [|discriminate].
  cbn [mbind option_bind]. intros [= <-].
  split; [reflexivity|].
  apply mapM_Some in Hm.
  assert (G : length (concat rss) = list_sum (rowCount <$> entries)
              ∧ Forall (λ r, length r = 5%nat) (concat rss)).
  { induction Hm as [|e rs es rss' He _ [IH1 IH2]];
      [split; [reflexivity | constructor]|].
    destruct (entryRows_shape e rs He) as [Hl Hf].
    cbn [concat fmap list_fmap list_sum]. rewrite length_app, Hl, IH1.
    split; [reflexivity|]. apply Forall_app. split; [|exact IH2].
    eapply Forall_impl; [exact Hf|]. intros r [H _]. exact H. }
  destruct G as [G1 G2]. split; [cbn [length]; by rewrite G1|].
  constructor; [reflexivity | exact G2].
Qed.

Lemma csvRows_shape_witness :
  ∃ rows, csvRows
            [mkDayEntry "2024-01-02" [] None;
             mkDayEntry "2024-01-03"
               [mkTimePair (Some "08:00") (Some "12:00");
                mkTimePair (Some "13:00") None] None] = Some rows
          ∧ length rows = 4%nat.
Proof.
  eexists. split; [reflexivity|].
  apply (proj1 (proj2 (csvRows_shape
    [mkDayEntry "2024-01-02" [] None;
     mkDayEntry "2024-01-03"
       [mkTimePair (Some "08:00") (Some "12:00");
        mkTimePair (Some "13:00") None] None] _ eq_refl))).
Defined.

Lemma csvPairMinutes_wellTimed p :
  wellTimed (start p) = true → wellTimed (end_ p) = true →
  csvPairMinutes p = periodMinutes p.
Proof.
  intros Hs He. unfold csvPairMinutes, periodMinutes, addPairMinutes.
  destruct (toMinutes_wellTimed_range _ Hs) as (s & -> & Rs).
  destruct (toMinutes_wellTimed_range _ He) as (e & -> & Re).
  destruct (JS.truthy (start p)), (JS.truthy (end_ p));
    cbn [negb orb andb mbind option_bind]; try reflexivity.
  f_equal. rewrite Z.rem_mod_nonneg by lia.
  destruct (Z.ltb_spec (e - s) 0).
  - rewrite Z.mod_small by lia. lia.
  - replace (e - s + 1440) with (e - s + 1 * 1440) by lia.
    rewrite Z.mod_add by lia. rewrite Z.mod_small by lia. lia.
Qed.

(** X23.  With time fields as the time inputs deliver them, the minutes the CSV
    shows for the pairs of a day add up to the total of that day. *)
Theorem csvPairMinutes_sum e :
  wellTimedEntry e = true →
  ∃ ds, mapM csvPairMinutes (pairs e) = Some ds
        ∧ sumDayMinutes e = Some (Zsum ds).
Proof.
  unfold wellTimedEntry, sumDayMinutes.
  assert (G : ∀ ps acc,
    forallb (λ p, wellTimed (start p) && wellTimed (end_ p)) ps = true →
    ∃ ds, mapM csvPairMinutes ps = Some ds
          ∧ reduce addPairMinutes ps acc = Some (acc + Zsum ds)).
  { induction ps as [|p ps IH]; intros acc H.
    - exists []. split; [reflexivity|]. cbn. f_equal. unfold Zsum. cbn. lia.
    - cbn [forallb] in H.
      apply andb_true_iff in H as [[Hs He]%andb_true_iff Hps].
      destruct (periodMinutes_wellTimed_range p Hs He) as (d & Hd & _).
      destruct (IH (acc + d) Hps) as (ds & Hm & Hr).
      exists (d :: ds). split.
      + cbn. rewrite (csvPairMinutes_wellTimed p Hs He), Hd. cbn.
        rewrite Hm. reflexivity.
      + cbn [reduce]. rewrite addPairMinutes_shift, Hd. cbn.
        rewrite Hr. f_equal. unfold Zsum. cbn [foldr]. lia. }
  intros H. destruct (G (pairs e) 0 H) as (ds & Hm & Hr).
  exists ds. split; [exact Hm|]. rewrite Hr. reflexivity.
Qed.

Lemma csvPairMinutes_sum_witness :
  ∃ ds, mapM csvPairMinutes
          [mkTimePair (Some "22:00") (Some "06:00");
           mkTimePair (Some "07:00") (Some "07:45")] = Some ds
        ∧ sumDayMinutes (mkDayEntry "2024-01-03"
            [mkTimePair (Some "22:00") (Some "06:00");
             mkTimePair (Some "07:00") (Some "07:45")] None) = Some (Zsum ds).
Proof.
  apply (csvPairMinutes_sum (mkDayEntry "2024-01-03"
            [mkTimePair (Some "22:00") (Some "06:00");
             mkTimePair (Some "07:00") (Some "07:45")] None)).
  reflexivity.
Defined.

End Csv.

(** ** Times of day: the other round trip *)

Section Checks.

Import CalendarCheck.

Lemma allFrom_spec f p : ∀ base,
  allFrom f base p = true → ∀ x, base <= x < base + Zpos p → f x = true.
Proof.
  induction p as [q IH|q IH|]; intros base H x Hx; cbn [allFrom] in H.
  - apply andb_true_iff in H as [[H0 H1]%andb_true_iff H2].
    destruct (Z.eq_dec x base) as [->|]; [exact H0|].
    destruct (Z_lt_le_dec x (base + 1 + Zpos q)).
    + apply (IH _ H1). lia.
    + apply (IH _ H2). lia.
  - apply andb_true_iff in H as [H1 H2].
    destruct (Z_lt_le_dec x (base + Zpos q)).
    + apply (IH _ H1). lia.
    + apply (IH _ H2). lia.
  - assert (x = base) as -> by lia. exact H.
Qed.

Lemma checkMinutes_all : allFrom checkMinutes 0 1440 = true.
Proof. vm_compute. reflexivity. Qed.

Lemma checkPad2_all : allFrom checkPad2 0 100 = true.
Proof. vm_compute. reflexivity. Qed.

Lemma checkPad4_all : allFrom checkPad4 0 10000 = true.
Proof. vm_compute. reflexivity. Qed.

Lemma checkDigits4_all :
  forallb (λ a, forallb (λ b, forallb (λ c,
    forallb (checkDigits4 a b c) digit_chars) digit_chars) digit_chars)
    digit_chars = true.
Proof. vm_compute. reflexivity. Qed.

Lemma checkYear_all : allFrom checkYear 0 400 = true.
Proof. vm_compute. reflexivity. Qed.

Lemma checkMonthDay_all :
  allFrom (λ m, allFrom (checkMonthDay m) 1 31) 1 12 = true.
Proof. vm_compute. reflexivity. Qed.

Lemma checkDoy_all : allFrom checkDoy 0 366 = true.
Proof. vm_compute. reflexivity. Qed.

End Checks.

Lemma minutesToHHMM_reads_back n :
  0 <= n < 1440 →
  validHHMM (minutesToHHMM n) = true
  ∧ toMinutes (Some (minutesToHHMM n)) = Some n.
Proof.
  intros Hn.
  pose proof (allFrom_spec _ _ _ checkMinutes_all n ltac:(lia)) as H.
  unfold CalendarCheck.checkMinutes in H.
  apply andb_true_iff in H as [H1 H2%bool_decide_eq_true]. split; assumption.
Qed.

(** X1.  The target field shows [minutesToHHMM] of the target and stores
    [toMinutes] of what is typed: every number of minutes of a day, 0 to
    1439, prints as a valid ["HH:MM"] and reads back as itself. *)
Theorem toMinutes_minutesToHHMM n :
  0 <= n < 1440 →
  validHHMM (minutesToHHMM n) = true
  ∧ toMinutes (Some (minutesToHHMM n)) = Some n.
Proof. apply minutesToHHMM_reads_back. Qed.

Lemma toMinutes_minutesToHHMM_witness :
  validHHMM (minutesToHHMM 1439) = true
  ∧ toMinutes (Some (minutesToHHMM 1439)) = Some 1439.
Proof. apply toMinutes_minutesToHHMM. lia. Defined.

Lemma nowHHMM_minutesToHHMM h m :
  0 <= h → 0 <= m < 60 → nowHHMM h m = minutesToHHMM (h * 60 + m).
Proof. intros Hh Hm. rewrite minutesToHHMM_nonneg by assumption. reflexivity. Qed.

(** X3.  A pair stamped by the clock counts the minutes from the first stamp to
    the second, modulo one day: [nowHHMM] yields a valid ["HH:MM"] that
    reads back as the minute of the day at which it was taken. *)
Theorem nowHHMM_pair h1 m1 h2 m2 :
  0 <= h1 < 24 → 0 <= m1 < 60 → 0 <= h2 < 24 → 0 <= m2 < 60 →
  validHHMM (nowHHMM h1 m1) = true
  ∧ toMinutes (Some (nowHHMM h1 m1)) = Some (h1 * 60 + m1)
  ∧ periodMinutes (mkTimePair (Some (nowHHMM h1 m1)) (Some (nowHHMM h2 m2)))
    = Some (((h2 * 60 + m2) - (h1 * 60 + m1)) mod 1440).
Proof.
  intros Hh1 Hm1 Hh2 Hm2.
  rewrite !nowHHMM_minutesToHHMM by lia.
  destruct (minutesToHHMM_reads_back (h1 * 60 + m1)) as [V1 T1]; [lia|].
  destruct (minutesToHHMM_reads_back (h2 * 60 + m2)) as [V2 T2]; [lia|].
  split; [exact V1|]. split; [exact T1|].
  assert (Tr : ∀ x, validHHMM x = true → JS.truthy (Some x) = true).
  { intros x Hx. destruct x; [discriminate | reflexivity]. }
  unfold periodMinutes, addPairMinutes. cbn [start end_].
  rewrite (Tr _ V1), (Tr _ V2), T1, T2. cbn [negb orb mbind option_bind].
  f_equal. rewrite Z.add_0_l.
  set (a := h1 * 60 + m1) in *. set (b := h2 * 60 + m2) in *.
  assert (0 <= a < 1440 ∧ 0 <= b < 1440) as [Ha Hb] by (unfold a, b; lia).
  destruct (Z.ltb_spec (b - a) 0).
  - replace (b - a) with (b - a + 1440 + (-1) * 1440) at 2 by lia.
    rewrite Z.mod_add, Z.mod_small by lia. reflexivity.
  - rewrite Z.mod_small by lia. reflexivity.
Qed.

Lemma nowHHMM_pair_witness :
  periodMinutes (mkTimePair (Some (nowHHMM 22 30)) (Some (nowHHMM 6 15)))
  = Some ((6 * 60 + 15 - (22 * 60 + 30)) mod 1440).
Proof. apply (nowHHMM_pair 22 30 6 15); lia. Defined.

(** ** The calendar: day numbers, dates and their texts *)

Section CalendarFacts.

Import JSDate CalendarCheck.

Local Ltac div_lia := Z.div_mod_to_equations; lia.

Lemma isLeap_period y k : isLeap (y + k * 400) = isLeap y.
Proof.
  unfold isLeap.
  replace (y + k * 400) with (y + (k * 100) * 4) at 1 by lia.
  replace (y + k * 400) with (y + (k * 4) * 100) at 1 by lia.
  rewrite !Z.mod_add by lia. reflexivity.
Qed.

Lemma daysInMonth_period y k m : daysInMonth (y + k * 400) m = daysInMonth y m.
Proof. unfold daysInMonth. rewrite isLeap_period. reflexivity. Qed.

Lemma daysInMonth_le_31 y m : daysInMonth y m <= 31.
Proof.
  unfold daysInMonth.
  destruct (m =? 2); [destruct (isLeap y); lia|].
  destruct ((m =? 4) || (m =? 6) || (m =? 9) || (m =? 11)); lia.
Qed.

Lemma civilFromDay_split z :
  civilFromDay z
  = let era := (z + 719468) / 146097 in
    let '(yy, m, d) := civilOfDoe (z + 719468 - era * 146097) in
    (yy + era * 400, m, d).
Proof.
  unfold civilFromDay, civilOfDoe, monthDayOfDoy, yearOfDoe. cbv zeta.
  match goal with |- context [if ?c then _ else _] => destruct c end;
    f_equal; f_equal; lia.
Qed.

Lemma dayFromCivil_split y m d :
  dayFromCivil y m d
  = let y' := y - beforeMarch m in
    y' / 400 * 146097 + doeOfCivil (y' - y' / 400 * 400) m d - 719468.
Proof.
  unfold dayFromCivil, doeOfCivil, yearStart, doyOfCivil, beforeMarch.
  cbv zeta.
  destruct (m <=? 2); rewrite ?Z.sub_0_r; lia.
Qed.

Lemma yearOfDoe_mono a b : 0 <= a <= b → yearOfDoe a <= yearOfDoe b.
Proof.
  intros H. unfold yearOfDoe. apply Z.div_le_mono; [lia|]. div_lia.
Qed.

Lemma checkYear_facts yoe :
  0 <= yoe <= 399 →
  0 <= yearStart yoe
  ∧ yearOfDoe (yearStart yoe) = yoe
  ∧ yearOfDoe (yearStart yoe + yearLen yoe - 1) = yoe
  ∧ yearStart yoe + yearLen yoe
    = (if yoe =? 399 then 146097 else yearStart (yoe + 1)).
Proof.
  intros Hy.
  pose proof (allFrom_spec _ _ _ checkYear_all yoe ltac:(lia)) as E.
  unfold checkYear in E. do 3 (apply andb_true_iff in E as [E ?]).
  rewrite Z.leb_le in E. repeat split; try lia; by apply Z.eqb_eq.
Qed.

Lemma yearStart_next yoe :
  0 <= yoe <= 398 → yearStart yoe + yearLen yoe = yearStart (yoe + 1).
Proof.
  intros Hy. destruct (checkYear_facts yoe ltac:(lia)) as (_ & _ & _ & E).
  destruct (Z.eqb_spec yoe 399); [lia | exact E].
Qed.

Lemma yearLen_range yoe : 365 <= yearLen yoe <= 366.
Proof. unfold yearLen. destruct (isLeap (yoe + 1)); lia. Qed.

(** Every day of a year of the era is found in that year. *)
Lemma yearOfDoe_in_year yoe doy :
  0 <= yoe <= 399 → 0 <= doy < yearLen yoe →
  yearOfDoe (yearStart yoe + doy) = yoe.
Proof.
  intros Hy Hd. destruct (checkYear_facts yoe Hy) as (H0 & Hs & He & _).
  apply Z.le_antisymm.
  - rewrite <- He at 2. apply yearOfDoe_mono. lia.
  - rewrite <- Hs at 1. apply yearOfDoe_mono. lia.
Qed.

(** Every day of the era lies in the year in which it is found. *)
Lemma yearOfDoe_range doe :
  0 <= doe < 146097 →
  0 <= yearOfDoe doe <= 399
  ∧ yearStart (yearOfDoe doe) <= doe
    < yearStart (yearOfDoe doe) + yearLen (yearOfDoe doe).
Proof.
  intros Hd.
  assert (H0 : yearOfDoe 0 = 0) by reflexivity.
  assert (H1 : yearOfDoe 146096 = 399) by reflexivity.
  assert (Hk : 0 <= yearOfDoe doe <= 399).
  { split.
    - rewrite <- H0. apply yearOfDoe_mono. lia.
    - rewrite <- H1. apply yearOfDoe_mono. lia. }
  split; [exact Hk|]. set (k := yearOfDoe doe) in *.
  destruct (checkYear_facts k Hk) as (Hs0 & Hs & He & Hn). split.
  - destruct (Z_le_gt_dec (yearStart k) doe) as [|Hlt]; [assumption|].
    exfalso. assert (Hk1 : 1 <= k).
    { destruct (Z.eq_dec k 0) as [E|]; [|lia].
      rewrite E in Hlt. change (yearStart 0) with 0 in Hlt. lia. }
    destruct (checkYear_facts (k - 1) ltac:(lia)) as (_ & _ & He' & _).
    pose proof (yearStart_next (k - 1) ltac:(lia)) as Hn'.
    replace (k - 1 + 1) with k in Hn' by lia.
    assert (yearOfDoe doe <= k - 1); [|unfold k in *; lia].
    rewrite <- He'. apply yearOfDoe_mono. lia.
  - destruct (Z_lt_le_dec doe (yearStart k + yearLen k)) as [|Hge];
      [assumption|].
    exfalso. destruct (Z.eqb_spec k 399) as [E|E]; [lia|].
    destruct (checkYear_facts (k + 1) ltac:(lia)) as (Hs0' & Hs' & _).
    assert (k + 1 <= yearOfDoe doe); [|unfold k in *; lia].
    rewrite <- Hs' at 1. apply yearOfDoe_mono. lia.
Qed.

Lemma checkMonthDay_facts m d :
  1 <= m <= 12 → 1 <= d <= maxDays m →
  0 <= doyOfCivil m d <= 365
  ∧ monthDayOfDoy (doyOfCivil m d) = (m, d)
  ∧ (doyOfCivil m d = 365 ↔ m = 2 ∧ d = 29)
  ∧ (306 <= doyOfCivil m d ↔ m <= 2).
Proof.
  intros Hm Hd.
  assert (maxDays m <= 31).
  { unfold maxDays. destruct (m =? 2); [lia|].
    destruct ((m =? 4) || (m =? 6) || (m =? 9) || (m =? 11)); lia. }
  pose proof (allFrom_spec _ _ _ checkMonthDay_all m ltac:(lia)) as E.
  cbv beta in E.
  pose proof (allFrom_spec _ _ _ E d ltac:(lia)) as E'.
  unfold checkMonthDay in E'.
  destruct (Z.leb_spec d (maxDays m)); [|lia].
  do 4 (apply andb_true_iff in E' as [E' ?]).
  repeat match goal with
  | H : bool_decide _ = true |- _ => apply bool_decide_eq_true in H
  | H : Bool.eqb _ _ = true |- _ => apply Bool.eqb_prop in H
  end.
  split; [lia|]. split; [assumption|]. split.
  - destruct (Z.eqb_spec (doyOfCivil m d) 365), (Z.eqb_spec m 2),
      (Z.eqb_spec d 29); cbn in *; try discriminate; lia.
  - destruct (Z.leb_spec 306 (doyOfCivil m d)), (Z.leb_spec m 2);
      try discriminate; lia.
Qed.

Lemma checkDoy_facts doy :
  0 <= doy <= 365 →
  ∃ m d, monthDayOfDoy doy = (m, d) ∧ 1 <= m <= 12 ∧ 1 <= d <= maxDays m
         ∧ doyOfCivil m d = doy.
Proof.
  intros Hd. pose proof (allFrom_spec _ _ _ checkDoy_all doy ltac:(lia)) as E.
  unfold checkDoy in E. destruct (monthDayOfDoy doy) as [m d].
  exists m, d. do 4 (apply andb_true_iff in E as [E ?]).
  split; [reflexivity|]. repeat split; try lia; by apply Z.eqb_eq.
Qed.

Lemma daysInMonth_maxDays y m :
  daysInMonth y m <= maxDays m
  ∧ (m ≠ 2 → daysInMonth y m = maxDays m)
  ∧ (m = 2 → daysInMonth y m = if isLeap y then 29 else 28).
Proof.
  unfold daysInMonth, maxDays. destruct (Z.eqb_spec m 2).
  - destruct (isLeap y); repeat split; intros; lia.
  - repeat split; intros; lia.
Qed.

Lemma yearStart_mono a b : 0 <= a <= b → yearStart a <= yearStart b.
Proof. intros H. unfold yearStart. div_lia. Qed.

Lemma checkCivil_facts yoe m d :
  0 <= yoe <= 399 → 1 <= m <= 12 →
  1 <= d <= daysInMonth (yoe + beforeMarch m) m →
  let doe := doeOfCivil yoe m d in
  0 <= doe < 146097
  ∧ civilOfDoe doe = (yoe + beforeMarch m, m, d)
  ∧ (yoe = 399 ∧ m <= 2 → 146037 <= doe)
  ∧ (¬ (yoe = 399 ∧ m <= 2) → doe <= 146036)
  ∧ (m <= 2 ∨ 1 <= yoe → 306 <= doe)
  ∧ (yoe <= 398 → doe <= 145731).
Proof.
  intros Hy Hm Hd doe.
  destruct (daysInMonth_maxDays (yoe + beforeMarch m) m) as (Hx & _ & Hf).
  destruct (checkMonthDay_facts m d Hm ltac:(lia)) as (Hr & Hc & H365 & H306).
  destruct (checkYear_facts yoe Hy) as (Hs0 & _ & _ & Hn).
  pose proof (yearLen_range yoe) as Hl.
  assert (Hdoy : doyOfCivil m d < yearLen yoe).
  { destruct (Z.eq_dec (doyOfCivil m d) 365) as [E|]; [|lia].
    apply H365 in E as [-> ->]. specialize (Hf eq_refl).
    unfold beforeMarch in *. cbn in Hf, Hd.
    unfold yearLen. destruct (isLeap (yoe + 1)); lia. }
  assert (H399 : yearStart 399 = 145731) by reflexivity.
  assert (Hle : yoe <= 398 → yearStart yoe + yearLen yoe <= 145731).
  { intros Hy'. rewrite yearStart_next by lia. rewrite <- H399.
    apply yearStart_mono. lia. }
  assert (Hge : 1 <= yoe → 365 <= yearStart yoe).
  { intros Hy'. change 365 with (yearStart 1). apply yearStart_mono. lia. }
  assert (Hend : yearStart yoe + yearLen yoe <= 146097).
  { destruct (Z.eqb_spec yoe 399); lia. }
  unfold doe, doeOfCivil.
  split; [lia|]. split.
  - unfold civilOfDoe. rewrite (yearOfDoe_in_year yoe _ Hy) by lia.
    cbv zeta.
    replace (yearStart yoe + doyOfCivil m d
             - (365 * yoe + yoe / 4 - yoe / 100))
      with (doyOfCivil m d) by (unfold yearStart; lia).
    rewrite Hc. unfold beforeMarch.
    destruct (m <=? 2); f_equal; f_equal; lia.
  - split; [intros [-> Hm2]; rewrite H399; lia|].
    split; [|split; [intros [Hm2|Hy1]; lia | intros; lia]].
    intros Hn2. destruct (Z.eq_dec yoe 399) as [->|]; [|lia].
    assert (2 < m).
    { destruct (Z_le_gt_dec m 2); [|lia].
      exfalso. apply Hn2. split; [reflexivity | assumption]. }
    rewrite H399. lia.
Qed.

Lemma checkDoe_facts doe :
  0 <= doe < 146097 →
  ∃ yy m d, civilOfDoe doe = (yy, m, d)
    ∧ 0 <= yy - beforeMarch m <= 399 ∧ 1 <= m <= 12
    ∧ 1 <= d <= daysInMonth yy m
    ∧ doeOfCivil (yy - beforeMarch m) m d = doe
    ∧ (doe <= 146036 → yy <= 399) ∧ (146037 <= doe → yy = 400).
Proof.
  intros Hd. destruct (yearOfDoe_range doe Hd) as (Hk & Hr).
  set (k := yearOfDoe doe) in *. pose proof (yearLen_range k) as Hl.
  set (doy := doe - yearStart k).
  destruct (checkDoy_facts doy ltac:(unfold doy; lia))
    as (m & d & Hmd & Hm & Hdm & Hdoy).
  destruct (checkMonthDay_facts m d Hm Hdm) as (_ & _ & H365 & H306).
  assert (Hdoe : doe = yearStart k + doy) by (unfold doy; lia).
  assert (E : civilOfDoe doe = (k + beforeMarch m, m, d)).
  { unfold civilOfDoe. fold k. cbv zeta.
    replace (doe - (365 * k + k / 4 - k / 100)) with doy
      by (unfold doy, yearStart; lia).
    rewrite Hmd. unfold beforeMarch.
    destruct (m <=? 2); f_equal; f_equal; lia. }
  exists (k + beforeMarch m), m, d. split; [exact E|].
  replace (k + beforeMarch m - beforeMarch m) with k by lia.
  assert (H399 : yearStart 399 = 145731) by reflexivity.
  assert (Hb : beforeMarch m = 1 ∧ m <= 2 ∨ beforeMarch m = 0 ∧ 2 < m)
    by (unfold beforeMarch; destruct (Z.leb_spec m 2); lia).
  split; [exact Hk|]. split; [exact Hm|]. split; [|split; [|split]].
  - destruct (daysInMonth_maxDays (k + beforeMarch m) m) as (_ & Hne & Hf).
    destruct (Z.eq_dec m 2) as [->|Hm2]; [|rewrite (Hne Hm2); lia].
    rewrite (Hf eq_refl). change (beforeMarch 2) with 1.
    destruct (isLeap (k + 1)) eqn:Hleap; [unfold maxDays in Hdm; cbn in Hdm; lia|].
    destruct (Z.eq_dec d 29) as [->|]; [|unfold maxDays in Hdm; cbn in Hdm; lia].
    assert (doyOfCivil 2 29 = 365) by (by apply H365).
    unfold yearLen in Hr. rewrite Hleap in Hr. lia.
  - unfold doeOfCivil. rewrite Hdoy. lia.
  - intros Hle. destruct (Z.eq_dec k 399) as [E399|]; [|lia].
    assert (yearStart k = 145731) by (rewrite E399; exact H399). lia.
  - intros Hge.
    assert (E399 : k = 399).
    { destruct (Z.eq_dec k 399) as [|Hne]; [assumption|]. exfalso.
      assert (yearStart k + yearLen k <= 145731); [|lia].
      rewrite yearStart_next by lia. rewrite <- H399.
      apply yearStart_mono. lia. }
    assert (yearStart k = 145731) by (rewrite E399; exact H399). lia.
Qed.
(** The calendar date of the day number of a date is that date. *)
Lemma civilFromDay_dayFromCivil y m d :
  validDate y m d → civilFromDay (dayFromCivil y m d) = (y, m, d).
Proof.
  intros [Hm Hd]. rewrite dayFromCivil_split. cbv zeta.
  set (y' := y - beforeMarch m). set (era := y' / 400).
  set (yoe := y' - era * 400).
  assert (Hyoe : 0 <= yoe <= 399) by (unfold yoe, era; div_lia).
  assert (Hy : y = yoe + beforeMarch m + era * 400) by (unfold yoe, y'; lia).
  rewrite Hy, daysInMonth_period in Hd.
  destruct (checkCivil_facts yoe m d Hyoe Hm Hd) as (Hr & Hc & _).
  rewrite civilFromDay_split. cbv zeta.
  replace ((era * 146097 + doeOfCivil yoe m d - 719468 + 719468) / 146097)
    with era by div_lia.
  replace (era * 146097 + doeOfCivil yoe m d - 719468 + 719468 - era * 146097)
    with (doeOfCivil yoe m d) by lia.
  rewrite Hc. f_equal. f_equal. lia.
Qed.


(** Day numbers of the years 0000 to 9999. *)
Lemma dayFromCivil_bounds y m d :
  validDate y m d → 0 <= y <= 9999 →
  firstDay <= dayFromCivil y m d <= lastDay
  ∧ (1 <= y → firstDay + 366 <= dayFromCivil y m d)
  ∧ (y <= 9998 → dayFromCivil y m d <= lastDay - 305).
Proof.
  intros [Hm Hd] Hy. rewrite dayFromCivil_split. cbv zeta.
  set (y' := y - beforeMarch m). set (era := y' / 400).
  set (yoe := y' - era * 400).
  assert (Hyoe : 0 <= yoe <= 399) by (unfold yoe, era; div_lia).
  assert (Hyy : y = yoe + beforeMarch m + era * 400) by (unfold yoe, y'; lia).
  rewrite Hyy, daysInMonth_period in Hd.
  destruct (checkCivil_facts yoe m d Hyoe Hm Hd) as (Hr & _ & B1 & B2 & B3 & B4).
  unfold firstDay, lastDay.
  assert (Hb : beforeMarch m = 1 ∧ m <= 2 ∨ beforeMarch m = 0 ∧ 2 < m)
    by (unfold beforeMarch; destruct (Z.leb_spec m 2); lia).
  assert (He : -1 <= era <= 24) by (unfold era, y'; div_lia).
  lia.
Qed.

Lemma civilFromDay_year_range z :
  firstDay <= z <= lastDay →
  ∃ y m d, civilFromDay z = (y, m, d) ∧ 0 <= y <= 9999.
Proof.
  unfold firstDay, lastDay. intros Hz. rewrite civilFromDay_split. cbv zeta.
  set (era := (z + 719468) / 146097). set (doe := z + 719468 - era * 146097).
  assert (Hdoe : 0 <= doe < 146097) by (unfold doe, era; div_lia).
  assert (He : -1 <= era <= 24) by (unfold era; div_lia).
  destruct (checkDoe_facts doe Hdoe) as (yy & m & d & -> & Hy & Hm & _ & _ & C1 & C2).
  exists (yy + era * 400), m, d. split; [reflexivity|].
  assert (Hb : 0 <= beforeMarch m <= 1)
    by (unfold beforeMarch; destruct (m <=? 2); lia).
  unfold doe in *. lia.
Qed.

(** *** Date texts *)


Lemma readDigits_two_inv acc s v rest :
  readDigits 2 acc s = Some (v, rest) →
  ∃ a b, s = String a (String b rest)
         ∧ JS.is_digit a = true ∧ JS.is_digit b = true
         ∧ v = 10 * (10 * acc + JS.digit_val a) + JS.digit_val b.
Proof.
  intros H. destruct s as [|a [|b s]]; cbn [readDigits] in H.
  - discriminate.
  - destruct (JS.is_digit a); discriminate.
  - destruct (JS.is_digit a) eqn:Ha; [|discriminate].
    destruct (JS.is_digit b) eqn:Hb; [|discriminate].
    injection H as <- <-. exists a, b. repeat split; assumption.
Qed.


Lemma readDigits_four_inv s v rest :
  readDigits 4 0 s = Some (v, rest) →
  ∃ a b c d, s = String a (String b (String c (String d rest)))
    ∧ JS.is_digit a = true ∧ JS.is_digit b = true
    ∧ JS.is_digit c = true ∧ JS.is_digit d = true
    ∧ v = 10 * (10 * (10 * JS.digit_val a + JS.digit_val b)
                + JS.digit_val c) + JS.digit_val d.
Proof.
  destruct s as [|a [|b s]].
  - discriminate.
  - cbn [readDigits]. destruct (JS.is_digit a); discriminate.
  - change (readDigits 4 0 (String a (String b s)))
      with (if JS.is_digit a
            then if JS.is_digit b
                 then readDigits 2 (10 * (10 * 0 + JS.digit_val a)
                                    + JS.digit_val b) s
                 else None
            else None).
    destruct (JS.is_digit a) eqn:Ha; [|discriminate].
    destruct (JS.is_digit b) eqn:Hb; [|discriminate].
    intros (c & d & -> & Hc & Hd & ->)%readDigits_two_inv.
    exists a, b, c, d. repeat split; assumption.
Qed.

Lemma pad4_digits y :
  0 <= y <= 9999 →
  ∃ a b c d, pad4 y = String a (String b (String c (String d EmptyString)))
    ∧ JS.is_digit a = true ∧ JS.is_digit b = true
    ∧ JS.is_digit c = true ∧ JS.is_digit d = true
    ∧ 10 * (10 * (10 * JS.digit_val a + JS.digit_val b)
            + JS.digit_val c) + JS.digit_val d = y.
Proof.
  intros Hy. pose proof (allFrom_spec _ _ _ checkPad4_all y ltac:(lia)) as E.
  unfold checkPad4 in E.
  destruct (pad4 y) as [|a [|b [|c [|d [|? ?]]]]]; try discriminate.
  do 4 (apply andb_true_iff in E as [E ?]).
  exists a, b, c, d. repeat split; try assumption. by apply Z.eqb_eq.
Qed.

Lemma pad2_digits n :
  0 <= n <= 99 →
  ∃ a b, pad2 n = String a (String b EmptyString)
    ∧ JS.is_digit a = true ∧ JS.is_digit b = true
    ∧ 10 * JS.digit_val a + JS.digit_val b = n.
Proof.
  intros Hn. pose proof (allFrom_spec _ _ _ checkPad2_all n ltac:(lia)) as E.
  unfold checkPad2 in E.
  destruct (pad2 n) as [|a [|b [|? ?]]]; try discriminate.
  do 2 (apply andb_true_iff in E as [E ?]).
  exists a, b. repeat split; try assumption. by apply Z.eqb_eq.
Qed.

Lemma pad4_four_digits a b c d :
  JS.is_digit a = true → JS.is_digit b = true →
  JS.is_digit c = true → JS.is_digit d = true →
  pad4 (10 * (10 * (10 * JS.digit_val a + JS.digit_val b)
              + JS.digit_val c) + JS.digit_val d)
  = String a (String b (String c (String d EmptyString))).
Proof.
  intros Ha%digit_cases Hb%digit_cases Hc%digit_cases Hd%digit_cases.
  pose proof checkDigits4_all as E.
  rewrite forallb_forall in E. specialize (E a Ha). cbv beta in E.
  rewrite forallb_forall in E. specialize (E b Hb). cbv beta in E.
  rewrite forallb_forall in E. specialize (E c Hc). cbv beta in E.
  rewrite forallb_forall in E. specialize (E d Hd).
  by apply String.eqb_eq.
Qed.

Lemma isoText_digits y m d :
  ∀ a b c e f g h i,
  pad4 y = String a (String b (String c (String e EmptyString))) →
  pad2 m = String f (String g EmptyString) →
  pad2 d = String h (String i EmptyString) →
  isoText (y, m, d)
  = String a (String b (String c (String e (String "-"
      (String f (String g (String "-" (String h (String i EmptyString))))))))).
Proof.
  intros a b c e f g h i Hy Hm Hd. unfold isoText.
  fold (pad4 y). fold (pad2 m). fold (pad2 d). rewrite Hy, Hm, Hd.
  reflexivity.
Qed.


(** A date that reads is the printed form of what it reads as. *)
Lemma parseYMD_inv s y m d :
  parseYMD s = Some (y, m, d) →
  s = isoText (y, m, d) ∧ validDate y m d ∧ 0 <= y <= 9999.
Proof.
  unfold parseYMD. intros H.
  destruct (readDigits 4 0 s) as [[y0 s1]|] eqn:E1; [|discriminate].
  cbn [mbind option_bind] in H.
  destruct s1 as [|c1 s1]; [discriminate|]. cbn [expect] in H.
  destruct (Ascii.eqb_spec "-" c1) as [<-|]; [|discriminate].
  cbn [mbind option_bind] in H.
  destruct (readDigits 2 0 s1) as [[m0 s2]|] eqn:E2; [|discriminate].
  cbn [mbind option_bind] in H.
  destruct s2 as [|c2 s2]; [discriminate|]. cbn [expect] in H.
  destruct (Ascii.eqb_spec "-" c2) as [<-|]; [|discriminate].
  cbn [mbind option_bind] in H.
  destruct (readDigits 2 0 s2) as [[d0 s3]|] eqn:E3; [|discriminate].
  cbn [mbind option_bind] in H.
  destruct (String.eqb_spec s3 EmptyString) as [->|]; [|discriminate].
  cbn [andb] in H.
  destruct (Z.leb_spec 1 m0); [|discriminate].
  destruct (Z.leb_spec m0 12); [|discriminate].
  destruct (Z.leb_spec 1 d0); [|discriminate].
  destruct (Z.leb_spec d0 (daysInMonth y0 m0)); [|discriminate].
  cbn [andb] in H. injection H as -> -> ->.
  apply readDigits_four_inv in E1 as (a & b & c & e & -> & Ha & Hb & Hc & He & Vy).
  apply readDigits_two_inv in E2 as (f & g & [= ->] & Hf & Hg & Vm).
  apply readDigits_two_inv in E3 as (h & i & [= ->] & Hh & Hi & Vd).
  rewrite Z.mul_0_r, Z.add_0_l in Vm, Vd.
  split; [|split; [split; lia|]].
  - symmetry. apply isoText_digits.
    + rewrite Vy. by apply pad4_four_digits.
    + rewrite Vm. by apply pad2_two_digits.
    + rewrite Vd. by apply pad2_two_digits.
  - pose proof (digit_val_range a Ha). pose proof (digit_val_range b Hb).
    pose proof (digit_val_range c Hc). pose proof (digit_val_range e He). lia.
Qed.


Lemma dayNumber_inv s z :
  dayNumber s = Some z → s = isoDay z ∧ firstDay <= z <= lastDay.
Proof.
  unfold dayNumber, isoDay.
  destruct (parseYMD s) as [[[y m] d]|] eqn:E; [|discriminate].
  cbn [mbind option_bind]. intros [= <-].
  destruct (parseYMD_inv s y m d E) as (-> & Hv & Hy).
  rewrite (civilFromDay_dayFromCivil y m d Hv).
  split; [reflexivity|]. by apply dayFromCivil_bounds.
Qed.

Lemma toISODate_day t :
  firstDay <= t / msPerDay <= lastDay →
  toISODate t = Some (isoDay (t / msPerDay)).
Proof.
  intros Hz. unfold toISODate, isoDay.
  destruct (civilFromDay_year_range _ Hz) as (y & m & d & -> & Hy).
  destruct (Z.leb_spec 0 y); [|lia]. destruct (Z.leb_spec y 9999); [|lia].
  reflexivity.
Qed.

End CalendarFacts.

Section WeekFacts.

Import JSDate.

Local Ltac div_lia := Z.div_mod_to_equations; lia.

Variable tzOffset : Z.








Hypothesis tzOffset_range : -1440 < tzOffset < 1440.





End WeekFacts.



(** ** Calendar grouping: the week in every zone *)

Section Weeks.

Import JSDate.

Local Ltac div_lia := Z.div_mod_to_equations; lia.



(** X24.  [todayYMD] is the date of the local calendar in every zone: at any
    instant of the local day [s], from its midnight on, it returns [s]. *)
Theorem todayYMD_local tzOffset s t0 k :
  localMidnight tzOffset s = Some t0 → 0 <= k < msPerDay →
  todayYMD tzOffset (t0 + k) = Some s.
Proof.
  intros Ht Hk. unfold localMidnight in Ht.
  destruct (parseYMD s) as [[[y m] d]|] eqn:Hp; [|discriminate].
  cbn [mbind option_bind] in Ht. injection Ht as <-.
  assert (Hs : dayNumber s = Some (dayFromCivil y m d))
    by (unfold dayNumber; by rewrite Hp).
  destruct (dayNumber_inv _ _ Hs) as [-> Hz].
  unfold todayYMD, utcTime.
  assert (E : (dayFromCivil y m d * msPerDay + tzOffset * msPerMinute + k
               - tzOffset * msPerMinute) / msPerDay = dayFromCivil y m d)
    by (unfold msPerDay in *; div_lia).
  rewrite toISODate_day; rewrite E; [reflexivity | exact Hz].
Qed.



End Weeks.

Lemma todayYMD_local_witness :
  todayYMD (-120) (1719957600000 + 86399999) = Some "2024-07-03".
Proof.
  apply (todayYMD_local (-120) "2024-07-03" 1719957600000 86399999);
    [reflexivity | unfold JSDate.msPerDay; lia].
Defined.



(** ** Calendar grouping: the month *)

Section Months.

Import JSDate.

Lemma monthKey_isoText y m d :
  validDate y m d → 0 <= y <= 9999 →
  monthKey (isoText (y, m, d)) = pad4 y ++ "-" ++ pad2 m.
Proof.
  intros [Hm Hd] Hy. pose proof (daysInMonth_le_31 y m).
  destruct (pad4_digits y Hy) as (a & b & c & e & Py & _).
  destruct (pad2_digits m ltac:(lia)) as (f & g & Pm & _).
  destruct (pad2_digits d ltac:(lia)) as (h & i & Pd & _).
  rewrite (isoText_digits _ _ _ _ _ _ _ _ _ _ _ Py Pm Pd), Py, Pm.
  reflexivity.
Qed.

Lemma monthKey_same y m y' m' :
  0 <= y <= 9999 → 0 <= y' <= 9999 → 1 <= m <= 12 → 1 <= m' <= 12 →
  pad4 y ++ "-" ++ pad2 m = pad4 y' ++ "-" ++ pad2 m' ↔ y = y' ∧ m = m'.
Proof.
  intros Hy Hy' Hm Hm'. split; [|by intros [-> ->]].
  destruct (pad4_digits y Hy) as (a & b & c & e & -> & _ & _ & _ & _ & <-).
  destruct (pad4_digits y' Hy') as (a' & b' & c' & e' & -> & _ & _ & _ & _ & <-).
  destruct (pad2_digits m ltac:(lia)) as (f & g & -> & _ & _ & <-).
  destruct (pad2_digits m' ltac:(lia)) as (f' & g' & -> & _ & _ & <-).
  cbn [append]. intros [= -> -> -> -> -> ->]. split; reflexivity.
Qed.

(** X27.  The month view holds exactly the stored days of the year and month of
    the selected date, in the order in which they are stored. *)
Theorem monthEntries_same_month selectedDate (entries : list DayEntry) y m d :
  parseYMD selectedDate = Some (y, m, d) →
  (∀ e y' m' d', parseYMD (date e) = Some (y', m', d') →
     (e ∈ monthEntries selectedDate entries
      ↔ e ∈ entries ∧ y' = y ∧ m' = m))
  ∧ monthEntries selectedDate entries `sublist_of` entries
  ∧ (∀ idx e, findSelected selectedDate entries = Some (idx, e) →
       e ∈ monthEntries selectedDate entries).
Proof.
  intros Hs. split; [|split].
  - intros e y' m' d' He. unfold monthEntries. rewrite list_elem_of_filter.
    destruct (parseYMD_inv _ _ _ _ Hs) as (-> & [Hm _] & Hy).
    destruct (parseYMD_inv _ _ _ _ He) as (Ee & [Hm' Hd'] & Hy').
    rewrite Ee at 1.
    rewrite !monthKey_isoText by (try split; try assumption;
      by apply (parseYMD_inv _ _ _ _ Hs) || by apply (parseYMD_inv _ _ _ _ He)).
    rewrite monthKey_same by assumption. tauto.
  - apply sublist_filter.
  - intros idx e (Hl & Hd & _)%list_find_Some. unfold monthEntries.
    apply list_elem_of_filter. split; [by rewrite Hd|].
    eapply list_elem_of_lookup_2; eassumption.
Qed.

End Months.

Lemma monthEntries_same_month_witness :
  let entries :=
    [mkDayEntry "2024-01-31" [] None; mkDayEntry "2024-02-01" [] None;
     mkDayEntry "2023-02-01" [] None] in
  mkDayEntry "2024-02-01" [] None ∈ monthEntries "2024-02-15" entries
  ∧ mkDayEntry "2023-02-01" [] None ∉ monthEntries "2024-02-15" entries.
Proof.
  cbv zeta.
  pose proof (monthEntries_same_month "2024-02-15"
    [mkDayEntry "2024-01-31" [] None; mkDayEntry "2024-02-01" [] None;
     mkDayEntry "2023-02-01" [] None] 2024 2 15 eq_refl) as [H _].
  split.
  - apply (H (mkDayEntry "2024-02-01" [] None) 2024 2 1 eq_refl).
    split; [|split; reflexivity]. apply elem_of_cons. right. by left.
  - intros Hin. apply (H (mkDayEntry "2023-02-01" [] None) 2023 2 1 eq_refl)
      in Hin as (_ & Hy & _). discriminate Hy.
Defined.

(** ** Further consequences *)

Section Consequences.

Variable selectedDate : string.

(** X14.  A pair added by hand after clocking in leaves the clocked-in pair open
    for good: the open pair keeps "Gehen jetzt" enabled, but [addEndNow]
    looks at the last pair, which is closed, and does nothing. *)
Theorem addEndNow_after_addEmptyPair now1 (prev : list DayEntry) :
  (∀ p, last (pairs (todayEntry selectedDate prev)) = Some p →
        JS.truthy (end_ p) = true) →
  JS.truthy (Some now1) = true →
  let st := addEmptyPair selectedDate (addStartNow selectedDate now1 prev) in
  hasOpenPair selectedDate st = true
  ∧ ∀ now, addEndNow selectedDate now st = st.
Proof.
  intros Hg Hn st.
  assert (Et : todayEntry selectedDate st
    = withPairs (todayEntry selectedDate prev)
        ((pairs (todayEntry selectedDate prev) ++ [mkTimePair (Some now1) None])
         ++ [mkTimePair (Some "08:00") (Some "16:00")])).
  { unfold st. rewrite addEmptyPair_appendToday, today_appendToday.
    rewrite (addStartNow_appendToday _ _ _ Hg), today_appendToday.
    reflexivity. }
  split.
  - unfold hasOpenPair. rewrite Et. cbn [pairs withPairs].
    apply existsb_exists. exists (mkTimePair (Some now1) None). split.
    + apply in_or_app. left. apply in_or_app. right. by left.
    + unfold isOpen. cbn [start end_]. rewrite Hn. reflexivity.
  - intros now. unfold addEndNow. unfold todayEntry in Et.
    destruct (findSelected selectedDate st) as [[idx e]|]; [|reflexivity].
    rewrite Et. cbn [pairs withPairs]. rewrite last_snoc. reflexivity.
Qed.

End Consequences.

Lemma addEndNow_after_addEmptyPair_witness :
  let day := "2024-01-03" in
  let st := addEmptyPair day (addStartNow day "09:00" [mkDayEntry day [] None]) in
  hasOpenPair day st = true ∧ addEndNow day "17:00" st = st.
Proof.
  cbv zeta.
  destruct (addEndNow_after_addEmptyPair "2024-01-03" "09:00"
    [mkDayEntry "2024-01-03" [] None]) as [H1 H2];
    [discriminate | reflexivity|].
  split; [exact H1 | apply H2].
Defined.

Lemma addEndNow_frame_witness :
  let day := "2024-01-03" in
  let prev := [mkDayEntry "2024-01-02" [mkTimePair (Some "08:00") None] None;
               mkDayEntry day [mkTimePair (Some "09:00") None] (Some "x")] in
  ∃ e', addEndNow day "17:00" prev !! 0%nat = Some e'
        ∧ e' = mkDayEntry "2024-01-02" [mkTimePair (Some "08:00") None] None.
Proof.
  cbv zeta.
  destruct (proj2 (addEndNow_frame "2024-01-03" "17:00"
    [mkDayEntry "2024-01-02" [mkTimePair (Some "08:00") None] None;
     mkDayEntry "2024-01-03" [mkTimePair (Some "09:00") None] (Some "x")])
    0%nat _ eq_refl) as (e' & H1 & _ & _ & _ & _ & _ & H7).
  exists e'. split; [exact H1 | apply H7; discriminate].
Defined.

(** X2.  A time with seconds, as a time input with a finer step delivers it,
    counts as its hours and minutes: [toMinutes] reads the first two fields
    and ignores the rest. *)
Theorem toMinutes_ignores_seconds x rest :
  validHHMM x = true →
  toMinutes (Some (x ++ ":" ++ rest)) = toMinutes (Some x).
Proof.
  intros Hx.
  destruct (validHHMM_inv x Hx) as (a & b & c & d & -> & Ha & Hb & Hc & Hd & _).
  rewrite (toMinutes_valid a b c d Ha Hb Hc Hd).
  change (String a (String b (String ":" (String c (String d EmptyString))))
          ++ ":" ++ rest)
    with (String a (String b (String ":" (String c (String d
            (String ":" rest)))))).
  unfold toMinutes.
  change (JS.truthy (Some (String a ?r))) with true. cbn [negb].
  cbn [JS.split].
  rewrite (digit_not_colon a Ha), (digit_not_colon b Hb),
    (digit_not_colon c Hc), (digit_not_colon d Hd).
  change (Ascii.eqb ":" ":") with true.
  destruct (JS.split ":" rest) as [f fs]. cbn iota beta.
  rewrite (Number_two_digits a b Ha Hb), (Number_two_digits c d Hc Hd).
  reflexivity.
Qed.

Lemma toMinutes_ignores_seconds_witness :
  toMinutes (Some ("08:30" ++ ":" ++ "45.5")) = toMinutes (Some "08:30").
Proof. apply toMinutes_ignores_seconds. reflexivity. Defined.
